(** * Databricks LangGraph admin agent: schema fix-up, request adapter, REST tools

    A shallow embedding of [agent_model.py] and [tools.py].

    - [Json]: the values [json.dumps] serialises and the text it writes.
    - [Schema]: [fix_schema_recursive], which works by mutating Python
      dictionaries in place; objects live in a store and are named by
      references, so that aliasing and mutation are visible.
    - [Load]: a JSON value laid out in such a store.
    - [Tools]: the REST wrappers of [tools.py], over a world that answers
      HTTP requests.
    - [Adapter]: [DatabricksAgentWrapper.predict].

    The facts about each come after all the definitions.

    Python strings are [string]s whose characters are read as code points
    below 256.  A Python float is known by the text [float.__repr__] gives
    for it; arithmetic on floats is outside the model. *)

From Stdlib Require Import ZArith List Ascii String Lia.
From stdpp Require Import base list strings pretty.

Open Scope Z_scope.

(** ** Exceptions and results *)

(** A raised exception: its class name and the text [str(e)] gives. *)
Record exn := Exn { exn_class : string; exn_str : string }.

Inductive result (A : Type) :=
| Ok (a : A)
| Raise (e : exn).
Arguments Ok {A} a.
Arguments Raise {A} e.

Definition rbind {A B} (r : result A) (k : A -> result B) : result B :=
  match r with
  | Ok a => k a
  | Raise e => Raise e
  end.

(** The double quote character, as a one-character string. *)
Definition dq : string := String "034"%char EmptyString.

(** A Python float: a finite one, given by the text [float.__repr__]
    writes for it, or one of the three that are not finite. *)
Inductive pyfloat :=
| Finite (repr : string)
| PosInf
| NegInf
| NaN.


(** ** JSON values and [json.dumps] *)

Module Json.

(** What [json.loads] builds and [json.dumps] accepts: [None], [bool],
    [int], [float], [str], [list] and [dict] with [str] keys.  A dict
    keeps its items in insertion order. *)
Inductive json :=
| JNull
| JBool (b : bool)
| JInt (n : Z)
| JFloat (f : pyfloat)
| JStr (s : string)
| JArray (elems : list json)
| JObject (items : list (string * json)).

(** [d.get(key)] on the items of a dict *)
Fixpoint lookup (key : string) (items : list (string * json)) : option json :=
  match items with
  | [] => None
  | (k, v) :: rest => if decide (k = key) then Some v else lookup key rest
  end.

(** [d[key] = v]: the value is replaced where the key is, or the item is
    added at the end. *)
Fixpoint dict_set (key : string) (v : json) (items : list (string * json))
  : list (string * json) :=
  match items with
  | [] => [(key, v)]
  | (k, v0) :: rest =>
      if decide (k = key) then (k, v) :: rest
      else (k, v0) :: dict_set key v rest
  end.

(** [type(x).__name__] *)
Definition type_name (j : json) : string :=
  match j with
  | JNull => "NoneType"
  | JBool _ => "bool"
  | JInt _ => "int"
  | JFloat _ => "float"
  | JStr _ => "str"
  | JArray _ => "list"
  | JObject _ => "dict"
  end.

Definition hex_digit (n : N) : ascii :=
  match n with
  | 0 => "0" | 1 => "1" | 2 => "2" | 3 => "3" | 4 => "4" | 5 => "5"
  | 6 => "6" | 7 => "7" | 8 => "8" | 9 => "9" | 10 => "a" | 11 => "b"
  | 12 => "c" | 13 => "d" | 14 => "e" | _ => "f"
  end%N%char.

Definition backslash : ascii := "092"%char.

(** One character of a string literal, as [json.dumps] writes it with
    [ensure_ascii] on: the quote and the backslash are escaped, the
    control characters that have a short form take it, and everything
    else outside the printable range [' '..'~'] becomes a [\uXXXX]. *)
Definition escape_char (c : ascii) : string :=
  let n := N_of_ascii c in
  let short x := String backslash (String x EmptyString) in
  if (n =? 34)%N then short "034"%char
  else if (n =? 92)%N then short backslash
  else if (n =? 10)%N then short "n"%char
  else if (n =? 13)%N then short "r"%char
  else if (n =? 9)%N then short "t"%char
  else if (n =? 8)%N then short "b"%char
  else if (n =? 12)%N then short "f"%char
  else if ((32 <=? n) && (n <=? 126))%N then String c EmptyString
  else String backslash
         (String "u" (String "0" (String "0"
            (String (hex_digit (n / 16)) (String (hex_digit (n mod 16)) EmptyString))))).

Fixpoint escape (s : string) : string :=
  match s with
  | EmptyString => EmptyString
  | String c rest => escape_char c +:+ escape rest
  end.

Definition dumps_str (s : string) : string := dq +:+ escape s +:+ dq.

(** A float as [json.dumps] writes it: [float.__repr__] for a finite one,
    and the three names it has for the others. *)
Definition dumps_float (f : pyfloat) : string :=
  match f with
  | Finite repr => repr
  | PosInf => "Infinity"
  | NegInf => "-Infinity"
  | NaN => "NaN"
  end.

(** [json.dumps(j)] with the default separators [", "] and [": "]. *)
Fixpoint dumps (j : json) : string :=
  match j with
  | JNull => "null"
  | JBool true => "true"
  | JBool false => "false"
  | JInt n => pretty n
  | JFloat f => dumps_float f
  | JStr s => dumps_str s
  | JArray elems => "[" +:+ String.concat ", " (map dumps elems) +:+ "]"
  | JObject items =>
      "{" +:+ String.concat ", "
                (map (fun kv => dumps_str (fst kv) +:+ ": " +:+ dumps (snd kv)) items)
          +:+ "}"
  end.

End Json.

(** ** Schema normalisation *)

Module Schema.

Abbreviation loc := nat (only parsing).

(** A Python value: a scalar, or a reference to a container object. *)
Inductive val :=
| VNone
| VBool (b : bool)
| VInt (n : Z)
| VFloat (f : pyfloat)
| VStr (s : string)
| VRef (l : loc).

(** A container object.  A dict keeps its items in insertion order. *)
Inductive obj :=
| ODict (items : list (string * val))
| OList (elems : list val).

Abbreviation store := (list obj).

Definition AP : string := "additionalProperties".

(** [key in d] *)
Fixpoint dict_has (key : string) (items : list (string * val)) : bool :=
  match items with
  | [] => false
  | (k, _) :: rest => if decide (k = key) then true else dict_has key rest
  end.

(** [del d[key]]: afterwards [key in d] is false.  A dict holds a key at
    most once; on such a list this drops that one item. *)
Fixpoint dict_del (key : string) (items : list (string * val))
  : list (string * val) :=
  match items with
  | [] => []
  | (k, v) :: rest =>
      if decide (k = key) then dict_del key rest
      else (k, v) :: dict_del key rest
  end.

(** Runs [f] over [xs] from left to right, threading the store. *)
Fixpoint for_each (f : val -> store -> option store) (xs : list val)
    (h : store) : option store :=
  match xs with
  | [] => Some h
  | x :: rest =>
      match f x h with
      | Some h' => for_each f rest h'
      | None => None
      end
  end.

(** [fix_schema_recursive(obj)], with the store made explicit.  The
    result is the object that was passed in and the store after the
    call.  [fuel] bounds the depth of the call stack; [None] is the
    interpreter giving up on a structure nested deeper than that (a
    cyclic one, for instance).

<<
    if isinstance(obj, dict):
        if 'additionalProperties' in obj:
            del obj['additionalProperties']
        for key, value in list(obj.items()):
            fix_schema_recursive(value)
    elif isinstance(obj, list):
        for item in obj:
            fix_schema_recursive(item)
    return obj
>> *)
Fixpoint fix_schema_recursive (fuel : nat) (o : val) (h : store)
  : option (val * store) :=
  match fuel with
  | O => None
  | S fuel' =>
      let call := fun v h0 => snd <$> fix_schema_recursive fuel' v h0 in
      match o with
      | VRef l =>
          match h !! l with
          | Some (ODict items) =>
              let items' :=
                if dict_has AP items then dict_del AP items else items in
              pair o <$> for_each call (map snd items') (<[l := ODict items']> h)
          | Some (OList elems) =>
              pair o <$> for_each call elems h
          | None => None
          end
      | _ => Some (o, h)
      end
  end.

(** The values a container holds (for a dict, the values of its items). *)
Definition children (ob : obj) : list val :=
  match ob with
  | ODict items => map snd items
  | OList elems => elems
  end.

(** The object once the disallowed key is gone from it. *)
Definition strip_obj (ob : obj) : obj :=
  match ob with
  | ODict items => ODict (dict_del AP items)
  | OList elems => OList elems
  end.

(** [reach h v l]: the object at [l] is [v] itself or nested in it, at
    any depth, through dict values and list elements. *)
Inductive reach (h : store) : val -> loc -> Prop :=
| reach_here l : reach h (VRef l) l
| reach_step l ob c l' :
    h !! l = Some ob -> In c (children ob) -> reach h c l' ->
    reach h (VRef l) l'.

(** No dict in or under [v] has the disallowed key. *)
Definition clean (h : store) (v : val) : Prop :=
  forall l items,
    reach h v l -> h !! l = Some (ODict items) -> dict_has AP items = false.

(** [h'] is [h] with the disallowed key gone from some of its dicts, and
    nothing else changed. *)
Definition stripped (h h' : store) : Prop :=
  length h' = length h /\
  forall l ob, h !! l = Some ob ->
    h' !! l = Some ob \/ h' !! l = Some (strip_obj ob).

(** [nested h v n]: the structure under [v] is at most [n] levels deep,
    the value under the disallowed key of a dict not counted (the
    traversal never enters it). *)
Inductive nested (h : store) : val -> nat -> Prop :=
| nested_none n : nested h VNone (S n)
| nested_bool b n : nested h (VBool b) (S n)
| nested_int z n : nested h (VInt z) (S n)
| nested_float f n : nested h (VFloat f) (S n)
| nested_str s n : nested h (VStr s) (S n)
| nested_ref l ob n :
    h !! l = Some ob ->
    (forall c, In c (children (strip_obj ob)) -> nested h c n) ->
    nested h (VRef l) (S n).

(** A schema as [convert_to_openai_tool] may hand it over: the outer
    dict at location 3 holds the disallowed key itself, and so do the
    dicts nested in it, one of them inside a list. *)
Definition demo_store : store :=
  [ ODict [("type", VStr "string"); (AP, VBool false)];
    ODict [("name", VRef 0); (AP, VBool false)];
    OList [VRef 0; VRef 1; VInt 7];
    ODict [(AP, VBool false); ("type", VStr "object");
           ("properties", VRef 1); ("anyOf", VRef 2)] ].

Definition demo_store_fixed : store :=
  [ ODict [("type", VStr "string")];
    ODict [("name", VRef 0)];
    OList [VRef 0; VRef 1; VInt 7];
    ODict [("type", VStr "object");
           ("properties", VRef 1); ("anyOf", VRef 2)] ].

End Schema.


Module Load.
Import Json Schema.

(** The nesting depth of a JSON value: 0 for a scalar. *)
Fixpoint depth (t : json) : nat :=
  match t with
  | JArray elems => S (fold_right (fun e d => Nat.max (depth e) d) O elems)
  | JObject items => S (fold_right (fun kv d => Nat.max (depth (snd kv)) d) O items)
  | _ => O
  end.

(** Builds the value in the store, bottom up, every container a fresh
    object (what [convert_to_openai_tool] hands over is such a tree). *)
Fixpoint build (t : json) (h : store) : val * store :=
  match t with
  | JNull => (VNone, h)
  | JBool b => (VBool b, h)
  | JInt n => (VInt n, h)
  | JFloat f => (VFloat f, h)
  | JStr s => (VStr s, h)
  | JArray elems =>
      let '(vs, h1) :=
        fold_right (fun e acc => let '(vs, h0) := acc in
                                 let '(v, h1) := build e h0 in (v :: vs, h1))
                   ([], h) elems in
      (VRef (length h1), h1 ++ [OList vs])
  | JObject items =>
      let '(kvs, h1) :=
        fold_right (fun kv acc => let '(kvs, h0) := acc in
                                  let '(v, h1) := build (snd kv) h0 in
                                  ((fst kv, v) :: kvs, h1))
                   ([], h) items in
      (VRef (length h1), h1 ++ [ODict kvs])
  end.
End Load.

(** ** The REST tools of [tools.py] *)

Module Tools.
Import Json.

Inductive verb := GET | POST | DELETE.

(** What a tool hands to [requests.get], [requests.post] or
    [requests.delete]. *)
Record http_request := {
  req_verb : verb;
  req_url : string;
  req_headers : list (string * string);
  req_json : option json;
  req_timeout : Z  (* seconds *)
}.

(** The part of a [requests.Response] the tools look at; [resp_json] is
    what [response.json()] returns, or raises when the body is not
    JSON. *)
Record response := {
  status_code : Z;
  reason : string;
  resp_url : string;
  resp_json : result json
}.

(** The surroundings of a tool call: the two module constants, the
    network ([Raise] for whatever [requests] raises instead of giving a
    response: an invalid URL, a refused connection, a timeout), and the
    notebook global [dbutils], which [tools.py] neither defines nor
    imports. *)
Record world := {
  DATABRICKS_BASE_URL : string;
  DATABRICKS_TOKEN : string;
  http : http_request -> result response;
  dbutils_secrets_get : option (string -> string -> result string)
}.

(** A computation that may raise and that records the requests it
    sends. *)
Definition io (A : Type) : Type := (result A * list http_request)%type.

Definition ret {A} (a : A) : io A := (Ok a, []).

Definition lift {A} (r : result A) : io A := (r, []).

Definition bind {A B} (m : io A) (k : A -> io B) : io B :=
  match m with
  | (Ok a, sent) => let (r, sent') := k a in (r, sent ++ sent')
  | (Raise e, sent) => (Raise e, sent)
  end.

Notation "x <- m ;; k" := (bind m (fun x => k))
  (at level 100, m at next level, right associativity).

(** [try: ... return text / except Exception as e: return handler(e)] *)
Definition try_except (body : io string) (handler : exn -> string)
  : string * list http_request :=
  match body with
  | (Ok text, sent) => (text, sent)
  | (Raise e, sent) => (handler e, sent)
  end.

Definition _get_auth_headers (w : world) : list (string * string) :=
  [("Authorization", "Bearer " +:+ DATABRICKS_TOKEN w);
   ("Content-Type", "application/json")].

(** [requests.<verb>(api_endpoint, headers=_get_auth_headers(),
    json=request_data, timeout=30.0)] *)
Definition send (w : world) (v : verb) (api_endpoint : string)
    (request_data : option json) : io response :=
  let req := {| req_verb := v; req_url := api_endpoint;
                req_headers := _get_auth_headers w;
                req_json := request_data; req_timeout := 30 |} in
  (http w req, [req]).

(** [response.raise_for_status()], as [requests] has it. *)
Definition raise_for_status (r : response) : io unit :=
  let msg kind :=
    pretty (status_code r) +:+ " " +:+ kind +:+ " Error: " +:+ reason r
      +:+ " for url: " +:+ resp_url r in
  if (400 <=? status_code r) && (status_code r <? 500)
  then lift (Raise (Exn "HTTPError" (msg "Client")))
  else if (500 <=? status_code r) && (status_code r <? 600)
  then lift (Raise (Exn "HTTPError" (msg "Server")))
  else ret tt.

(** [response.json()] *)
Definition response_json (r : response) : io json := lift (resp_json r).

(** [j.get(key, default)]; only a dict has [get]. *)
Definition json_get (j : json) (key : string) (default : json) : io json :=
  match j with
  | JObject items =>
      ret (match lookup key items with Some v => v | None => default end)
  | _ =>
      lift (Raise (Exn "AttributeError"
             ("'" +:+ type_name j +:+ "' object has no attribute 'get'")))
  end.

(** [if value is not None: request_data[key] = value] *)
Definition set_if_not_none {A} (key : string) (inj : A -> json)
    (value : option A) (request_data : list (string * json)) :=
  match value with
  | Some v => dict_set key (inj v) request_data
  | None => request_data
  end.

(** [if value: request_data[key] = value], for an optional string: the
    empty string counts as absent. *)
Definition set_if_truthy (key : string) (value : option string)
    (request_data : list (string * json)) :=
  match value with
  | Some v => if decide (v = "") then request_data
              else dict_set key (JStr v) request_data
  | None => request_data
  end.

(** The text every [except] branch returns, up to the tool name it
    writes. *)
Definition error_payload (tool : string) (e : exn) : string :=
  dumps (JObject [("error", JStr ("Databricks API Error: " +:+ exn_str e));
                  ("tool", JStr tool)]).

(** [json.dumps({"status": "Success", "message": success_message})] *)
Definition success_payload (success_message : string) : string :=
  dumps (JObject [("status", JStr "Success");
                  ("message", JStr success_message)]).


Abbreviation output := (string * list http_request)%type.

(** *** Service principals *)

Definition list_service_principal (w : world)
    (filter : option string) (count : option Z)
    (sortBy sortOrder : option string) (startIndex : option Z)
    (attributes excludedAttributes : option string) : output :=
  let api_endpoint :=
    DATABRICKS_BASE_URL w +:+ "/api/2.0/preview/scim/v2/ServicePrincipals" in
  try_except
    (let request_data := [] in
     let request_data := set_if_not_none "filter" JStr filter request_data in
     let request_data := set_if_not_none "count" JInt count request_data in
     let request_data := set_if_not_none "sortBy" JStr sortBy request_data in
     let request_data := set_if_not_none "sortOrder" JStr sortOrder request_data in
     let request_data := set_if_not_none "startIndex" JInt startIndex request_data in
     let request_data := set_if_not_none "attributes" JStr attributes request_data in
     let request_data :=
       set_if_not_none "excludedAttributes" JStr excludedAttributes request_data in
     response <- send w GET api_endpoint (Some (JObject request_data)) ;;
     _ <- raise_for_status response ;;
     result <- response_json response ;;
     ret (dumps result))
    (error_payload "list_service_principal").

Definition create_service_principal (w : world)
    (display_name : string) (active : bool) (application_id : option string)
  : output :=
  let api_endpoint :=
    DATABRICKS_BASE_URL w +:+ "/api/2.0/preview/scim/v2/ServicePrincipals" in
  try_except
    (let request_data :=
       [("schemas",
         JArray [JStr "urn:ietf:params:scim:schemas:core:2.0:ServicePrincipal"]);
        ("displayName", JStr display_name);
        ("active", JBool active)] in
     let request_data :=
       set_if_not_none "applicationId" JStr application_id request_data in
     response <- send w POST api_endpoint (Some (JObject request_data)) ;;
     _ <- raise_for_status response ;;
     result <- response_json response ;;
     ret (dumps result))
    (error_payload "create_service_principal").

Definition get_service_principal_details (w : world) (id : Z) : output :=
  let api_endpoint :=
    DATABRICKS_BASE_URL w +:+ "/api/2.0/preview/scim/v2/ServicePrincipals/"
      +:+ pretty id in
  try_except
    (let request_data := [("id", JInt id)] in
     response <- send w GET api_endpoint (Some (JObject request_data)) ;;
     _ <- raise_for_status response ;;
     result <- response_json response ;;
     ret (dumps result))
    (error_payload "get_service_principal_details").

Definition delete_service_principal (w : world) (id : Z) : output :=
  let api_endpoint :=
    DATABRICKS_BASE_URL w +:+ "/api/2.0/preview/scim/v2/ServicePrincipals/"
      +:+ pretty id in
  try_except
    (response <- send w DELETE api_endpoint None ;;
     _ <- raise_for_status response ;;
     let success_message :=
       "Service Principal with ID " +:+ pretty id +:+ " deleted successfully." in
     ret (success_payload success_message))
    (error_payload "delete_service_principal").

(** *** Scopes and secrets *)

Definition list_of_scopes (w : world) : output :=
  let api_endpoint := DATABRICKS_BASE_URL w +:+ "/api/2.0/secrets/scopes/list" in
  try_except
    (response <- send w GET api_endpoint None ;;
     _ <- raise_for_status response ;;
     body <- response_json response ;;
     result <- json_get body "scopes" (JArray []) ;;
     ret (dumps result))
    (error_payload "list_of_scopes").

Definition create_scope (w : world) (scope scope_backend_type : string)
    (initial_manage_principal : option string) : output :=
  let api_endpoint := DATABRICKS_BASE_URL w +:+ "/api/2.0/secrets/scopes/create" in
  try_except
    (let request_data :=
       [("scope", JStr scope);
        ("scope_backend_type", JStr scope_backend_type)] in
     let request_data :=
       set_if_not_none "initial_manage_principal" JStr initial_manage_principal
         request_data in
     response <- send w POST api_endpoint (Some (JObject request_data)) ;;
     _ <- raise_for_status response ;;
     let success_message := "Scope " +:+ scope +:+ " created successfully." in
     ret (success_payload success_message))
    (error_payload "create_scope").

Definition add_secret (w : world) (scope key : string)
    (string_value bytes_value : option string) : output :=
  let api_endpoint := DATABRICKS_BASE_URL w +:+ "/api/2.0/secrets/put" in
  try_except
    (let request_data := [("scope", JStr scope); ("key", JStr key)] in
     let request_data := set_if_truthy "string_value" string_value request_data in
     let request_data := set_if_truthy "bytes_value" bytes_value request_data in
     response <- send w POST api_endpoint (Some (JObject request_data)) ;;
     _ <- raise_for_status response ;;
     let success_message :=
       "Secret with key " +:+ key +:+ " stored successfully." in
     ret (success_payload success_message))
    (error_payload "create_secret").

Definition delete_secret (w : world) (scope key : string) : output :=
  let api_endpoint := DATABRICKS_BASE_URL w +:+ "/api/2.0/secrets/delete" in
  try_except
    (let request_data := [("scope", JStr scope); ("key", JStr key)] in
     response <- send w POST api_endpoint (Some (JObject request_data)) ;;
     _ <- raise_for_status response ;;
     let success_message :=
       "Secret with key " +:+ key +:+ " deleted successfully." in
     ret (success_payload success_message))
    (error_payload "delete_secret").

Definition delete_scope (w : world) (scope : string) : output :=
  let api_endpoint := DATABRICKS_BASE_URL w +:+ "/api/2.0/secrets/scopes/delete" in
  try_except
    (let request_data := [("scope", JStr scope)] in
     response <- send w POST api_endpoint (Some (JObject request_data)) ;;
     _ <- raise_for_status response ;;
     let success_message := "Scope " +:+ scope +:+ " deleted successfully." in
     ret (success_payload success_message))
    (error_payload "delete_scope").

(** [dbutils.secrets.get(scope=scope, key=key)]: a [NameError] where the
    global is not there. *)
Definition dbutils_get (w : world) (scope key : string) : io string :=
  match dbutils_secrets_get w with
  | Some get => lift (get scope key)
  | None => lift (Raise (Exn "NameError" "name 'dbutils' is not defined"))
  end.

Definition get_secret (w : world) (scope key : string) : output :=
  try_except
    (secret_value <- dbutils_get w scope key ;;
     ret (dumps (JObject [("key", JStr key); ("value", JStr secret_value);
                          ("source", JStr "dbutils")])))
    (error_payload "get_secret").

Definition create_acl_scopes (w : world) (scope permission principal : string)
  : output :=
  let api_endpoint := DATABRICKS_BASE_URL w +:+ "/api/2.0/secrets/acls/put" in
  try_except
    (let request_data :=
       [("scope", JStr scope); ("principal", JStr principal);
        ("permission", JStr permission)] in
     response <- send w POST api_endpoint (Some (JObject request_data)) ;;
     _ <- raise_for_status response ;;
     let success_message :=
       "Gave " +:+ permission +:+ " permission to " +:+ principal +:+ " on "
         +:+ scope +:+ "." in
     ret (success_payload success_message))
    (error_payload "create_acl_scopes").

Definition list_acl_scopes (w : world) (scope : string) : output :=
  let api_endpoint := DATABRICKS_BASE_URL w +:+ "/api/2.0/secrets/acls/list" in
  try_except
    (let request_data := [("scope", JStr scope)] in
     response <- send w GET api_endpoint (Some (JObject request_data)) ;;
     _ <- raise_for_status response ;;
     result <- response_json response ;;
     ret (dumps result))
    (error_payload "list_acl_scopes").

Definition delete_acl_scopes (w : world) (scope principal : string) : output :=
  let api_endpoint := DATABRICKS_BASE_URL w +:+ "/api/2.0/secrets/acls/delete" in
  try_except
    (let request_data :=
       [("scope", JStr scope); ("principal", JStr principal)] in
     response <- send w POST api_endpoint (Some (JObject request_data)) ;;
     _ <- raise_for_status response ;;
     let success_message :=
       "Deleted permissions for " +:+ principal +:+ " on " +:+ scope +:+ "." in
     ret (success_payload success_message))
    (error_payload "delete_acl_scopes").


(** *** Clusters *)

Definition list_clusters (w : world) : output :=
  let api_endpoint := DATABRICKS_BASE_URL w +:+ "/api/2.1/clusters/list" in
  try_except
    (response <- send w GET api_endpoint None ;;
     _ <- raise_for_status response ;;
     body <- response_json response ;;
     result <- json_get body "clusters" (JArray []) ;;
     ret (dumps result))
    (error_payload "list_clusters").

Definition terminate_clusters (w : world) (cluster_id : string) : output :=
  let api_endpoint := DATABRICKS_BASE_URL w +:+ "/api/2.1/clusters/delete" in
  try_except
    (let request_data := [("cluster_id", JStr cluster_id)] in
     response <- send w POST api_endpoint (Some (JObject request_data)) ;;
     _ <- raise_for_status response ;;
     let success_message :=
       "Cluster " +:+ cluster_id +:+ " terminated successfully." in
     ret (success_payload success_message))
    (error_payload "terminate_clusters").

Definition start_cluster (w : world) (cluster_id : string) : output :=
  let api_endpoint := DATABRICKS_BASE_URL w +:+ "/api/2.1/clusters/start" in
  try_except
    (let request_data := [("cluster_id", JStr cluster_id)] in
     response <- send w POST api_endpoint (Some (JObject request_data)) ;;
     _ <- raise_for_status response ;;
     let success_message :=
       "Cluster " +:+ cluster_id +:+ " started successfully." in
     ret (success_payload success_message))
    (error_payload "start_cluster").

Definition get_cluster_info (w : world) (cluster_id : string) : output :=
  let api_endpoint := DATABRICKS_BASE_URL w +:+ "/api/2.1/clusters/get" in
  try_except
    (let request_data := [("cluster_id", JStr cluster_id)] in
     response <- send w GET api_endpoint (Some (JObject request_data)) ;;
     _ <- raise_for_status response ;;
     result <- response_json response ;;
     ret (dumps result))
    (error_payload "get_cluster_info").

Definition restart_cluster (w : world) (cluster_id : string) : output :=
  let api_endpoint := DATABRICKS_BASE_URL w +:+ "/api/2.1/clusters/restart" in
  try_except
    (let request_data := [("cluster_id", JStr cluster_id)] in
     response <- send w POST api_endpoint (Some (JObject request_data)) ;;
     _ <- raise_for_status response ;;
     let success_message :=
       "Cluster " +:+ cluster_id +:+ " restarted successfully." in
     ret (success_payload success_message))
    (error_payload "restart_cluster").

(** *** Jobs *)

Section Jobs.

(** [json.loads]: the value a text stands for, or the exception the
    parser raises on a text that is not JSON. *)
Variable json_loads : string -> result json.

(** [if job_parameters: request_data["json_parameters"] =
    json.loads(job_parameters)] *)
Definition set_job_parameters (job_parameters : option string)
    (request_data : list (string * json)) : io (list (string * json)) :=
  match job_parameters with
  | Some text =>
      if decide (text = "") then ret request_data
      else
        parsed <- lift (json_loads text) ;;
        ret (dict_set "json_parameters" parsed request_data)
  | None => ret request_data
  end.

Definition start_job (w : world) (job_id : Z) (job_parameters : option string)
  : output :=
  let api_endpoint := DATABRICKS_BASE_URL w +:+ "/api/2.2/jobs/run-now" in
  try_except
    (let request_data := [("job_id", JInt job_id)] in
     request_data <- set_job_parameters job_parameters request_data ;;
     response <- send w POST api_endpoint (Some (JObject request_data)) ;;
     _ <- raise_for_status response ;;
     let success_message :=
       "Job: " +:+ pretty job_id +:+ " started successfully." in
     ret (success_payload success_message))
    (error_payload "start_job").

End Jobs.

Definition list_jobs (w : world) (limit : Z) (expand_tasks : bool)
    (name page_token : option string) : output :=
  let api_endpoint := DATABRICKS_BASE_URL w +:+ "/api/2.2/jobs/list" in
  try_except
    (let request_data :=
       [("limit", JInt limit); ("expand_tasks", JBool expand_tasks)] in
     let request_data := set_if_truthy "name" name request_data in
     let request_data := set_if_truthy "page_token" page_token request_data in
     response <- send w GET api_endpoint (Some (JObject request_data)) ;;
     _ <- raise_for_status response ;;
     result <- response_json response ;;
     ret (dumps result))
    (error_payload "list_jobs").

Definition cancel_job (w : world) (job_id : Z) : output :=
  let api_endpoint := DATABRICKS_BASE_URL w +:+ "/api/2.2/jobs/runs/cancel-all" in
  try_except
    (let request_data := [("job_id", JInt job_id)] in
     response <- send w POST api_endpoint (Some (JObject request_data)) ;;
     _ <- raise_for_status response ;;
     ret ("Job: " +:+ pretty job_id +:+ " cancelled succesfully"))
    (error_payload "list_jobs").

Definition get_job_details (w : world) (job_id : Z) (page_token : option string)
  : output :=
  let api_endpoint := DATABRICKS_BASE_URL w +:+ "/api/2.2/jobs/get" in
  try_except
    (let request_data := [("job_id", JInt job_id)] in
     let request_data := set_if_truthy "page_token" page_token request_data in
     response <- send w GET api_endpoint (Some (JObject request_data)) ;;
     _ <- raise_for_status response ;;
     result <- response_json response ;;
     ret (dumps result))
    (error_payload "get_job").

(** *** The registry

    [discover_tools] collects every tool object of the module; the
    [@tool] decorator registers each under the name of its function.  A
    [call] is one of them with its arguments. *)
Inductive call :=
| call_list_service_principal
    (filter : option string) (count : option Z)
    (sortBy sortOrder : option string) (startIndex : option Z)
    (attributes excludedAttributes : option string)
| call_create_service_principal
    (display_name : string) (active : bool) (application_id : option string)
| call_get_service_principal_details (id : Z)
| call_delete_service_principal (id : Z)
| call_list_of_scopes
| call_create_scope
    (scope scope_backend_type : string) (initial_manage_principal : option string)
| call_add_secret (scope key : string) (string_value bytes_value : option string)
| call_delete_secret (scope key : string)
| call_delete_scope (scope : string)
| call_get_secret (scope key : string)
| call_create_acl_scopes (scope permission principal : string)
| call_list_acl_scopes (scope : string)
| call_delete_acl_scopes (scope principal : string)
| call_list_clusters
| call_terminate_clusters (cluster_id : string)
| call_start_cluster (cluster_id : string)
| call_get_cluster_info (cluster_id : string)
| call_restart_cluster (cluster_id : string)
| call_start_job (job_id : Z) (job_parameters : option string)
| call_list_jobs
    (limit : Z) (expand_tasks : bool) (name page_token : option string)
| call_cancel_job (job_id : Z)
| call_get_job_details (job_id : Z) (page_token : option string).

Definition registered_name (c : call) : string :=
  match c with
  | call_list_service_principal _ _ _ _ _ _ _ => "list_service_principal"
  | call_create_service_principal _ _ _ => "create_service_principal"
  | call_get_service_principal_details _ => "get_service_principal_details"
  | call_delete_service_principal _ => "delete_service_principal"
  | call_list_of_scopes => "list_of_scopes"
  | call_create_scope _ _ _ => "create_scope"
  | call_add_secret _ _ _ _ => "add_secret"
  | call_delete_secret _ _ => "delete_secret"
  | call_delete_scope _ => "delete_scope"
  | call_get_secret _ _ => "get_secret"
  | call_create_acl_scopes _ _ _ => "create_acl_scopes"
  | call_list_acl_scopes _ => "list_acl_scopes"
  | call_delete_acl_scopes _ _ => "delete_acl_scopes"
  | call_list_clusters => "list_clusters"
  | call_terminate_clusters _ => "terminate_clusters"
  | call_start_cluster _ => "start_cluster"
  | call_get_cluster_info _ => "get_cluster_info"
  | call_restart_cluster _ => "restart_cluster"
  | call_start_job _ _ => "start_job"
  | call_list_jobs _ _ _ _ => "list_jobs"
  | call_cancel_job _ => "cancel_job"
  | call_get_job_details _ _ => "get_job_details"
  end.

Definition invoke (json_loads : string -> result json) (w : world) (c : call)
  : output :=
  match c with
  | call_list_service_principal a b c d e f g =>
      list_service_principal w a b c d e f g
  | call_create_service_principal a b c => create_service_principal w a b c
  | call_get_service_principal_details a => get_service_principal_details w a
  | call_delete_service_principal a => delete_service_principal w a
  | call_list_of_scopes => list_of_scopes w
  | call_create_scope a b c => create_scope w a b c
  | call_add_secret a b c d => add_secret w a b c d
  | call_delete_secret a b => delete_secret w a b
  | call_delete_scope a => delete_scope w a
  | call_get_secret a b => get_secret w a b
  | call_create_acl_scopes a b c => create_acl_scopes w a b c
  | call_list_acl_scopes a => list_acl_scopes w a
  | call_delete_acl_scopes a b => delete_acl_scopes w a b
  | call_list_clusters => list_clusters w
  | call_terminate_clusters a => terminate_clusters w a
  | call_start_cluster a => start_cluster w a
  | call_get_cluster_info a => get_cluster_info w a
  | call_restart_cluster a => restart_cluster w a
  | call_start_job a b => start_job json_loads w a b
  | call_list_jobs a b c d => list_jobs w a b c d
  | call_cancel_job a => cancel_job w a
  | call_get_job_details a b => get_job_details w a b
  end.

(** *** Notions the statements about the tools use *)

(** The request did not complete: [requests] raised, or the response
    carries an error status. *)
Definition failing (o : result response) : Prop :=
  match o with
  | Raise _ => True
  | Ok r => 400 <= status_code r < 600
  end.

(** The tool name each [except] branch writes into its payload. *)
Definition except_name (c : call) : string :=
  match c with
  | call_add_secret _ _ _ _ => "create_secret"
  | call_cancel_job _ => "list_jobs"
  | call_get_job_details _ _ => "get_job"
  | _ => registered_name c
  end.

Definition is_error_payload (tool text : string) : Prop :=
  exists msg, text = dumps (JObject [("error", JStr msg); ("tool", JStr tool)]).

(** A text between double quotes. *)
Definition quoted (s : string) : string := dq +:+ s +:+ dq.

(** The module as checked in: the base URL is still the placeholder, so
    [requests] refuses every URL built from it before anything is
    sent. *)
Definition placeholder_world : world :=
  {| DATABRICKS_BASE_URL := "YOUR DATABRICKS BASE URL";
     DATABRICKS_TOKEN := "YOUR DATABRICKS PAT TOKEN";
     http := fun req =>
       Raise (Exn "MissingSchema"
                ("Invalid URL '" +:+ req_url req
                 +:+ "': No scheme supplied. Perhaps you meant https://"
                 +:+ req_url req +:+ "?"));
     dbutils_secrets_get := None |}.

(** A world whose platform answers every request with [r]. *)
Definition answering (r : response) : world :=
  {| DATABRICKS_BASE_URL := "https://adb.example.net";
     DATABRICKS_TOKEN := "dapi0";
     http := fun _ => Ok r;
     dbutils_secrets_get := None |}.

Definition ok_response (body : json) : response :=
  {| status_code := 200; reason := "OK"; resp_url := "https://adb.example.net";
     resp_json := Ok body |}.

(** A parser that knows the empty object and rejects the rest the way
    [json.loads] rejects a text that starts with no JSON value. *)
Definition loads_empty_object (text : string) : result json :=
  if decide (text = "{}") then Ok (JObject [])
  else Raise (Exn "JSONDecodeError" "Expecting value: line 1 column 1 (char 0)").

(** [text] is the response body serialised, or a field of it (an empty
    list where the body has no such field) serialised. *)
Definition raw_or_extracted (body : list (string * json)) (text : string) : Prop :=
  text = dumps (JObject body) \/
  exists key,
    text = dumps (match lookup key body with Some v => v | None => JArray [] end).

(** [text] is a status object the tool wrote itself. *)
Definition status_message (text : string) : Prop :=
  exists message,
    text = dumps (JObject [("status", JStr "Success"); ("message", JStr message)]).

End Tools.

(** ** The request adapter of [agent_model.py] *)

Module Adapter.
Import Json.

(** The three message classes [predict] builds, each with its text. *)
Inductive message :=
| HumanMessage (content : string)
| AIMessage (content : string)
| SystemMessage (content : string).

Definition content_of (m : message) : string :=
  match m with
  | HumanMessage c | AIMessage c | SystemMessage c => c
  end.

(** [cls(content=content)].  By now a list content has been joined into
    a text; the message classes take a text (or a list) and reject
    anything else. *)
Definition construct (cls : string -> message) (content : json) : result message :=
  match content with
  | JStr s => Ok (cls s)
  | _ => Raise (Exn "ValidationError" "Input should be a valid string")
  end.

Record content_part := { part_type : string; part_text : string }.

Record output_item := {
  item_type : string;
  item_id : string;
  item_content : list content_part;
  item_role : string
}.

Record ResponsesAgentResponse := {
  response_id : string;
  output : list output_item
}.

Definition create_text_output_item (text id : string) : output_item :=
  {| item_type := "message";
     item_id := id;
     item_content := [{| part_type := "output_text"; part_text := text |}];
     item_role := "assistant" |}.

(** [msg[key]] with a string key *)
Definition subscript (msg : json) (key : string) : result json :=
  match msg with
  | JObject items =>
      match lookup key items with
      | Some v => Ok v
      | None => Raise (Exn "KeyError" ("'" +:+ key +:+ "'"))
      end
  | JArray _ =>
      Raise (Exn "TypeError" "list indices must be integers or slices, not str")
  | JStr _ =>
      Raise (Exn "TypeError" "string indices must be integers, not 'str'")
  | _ =>
      Raise (Exn "TypeError"
               ("'" +:+ type_name msg +:+ "' object is not subscriptable"))
  end.

(** [len(x)] *)
Definition len (x : json) : result nat :=
  match x with
  | JArray elems => Ok (length elems)
  | JObject items => Ok (length items)
  | JStr s => Ok (String.length s)
  | _ =>
      Raise (Exn "TypeError"
               ("object of type '" +:+ type_name x +:+ "' has no len()"))
  end.

(** What [for msg in x] runs over: the elements of a list, the keys of a
    dict, the characters of a string. *)
Definition iterate (x : json) : result (list json) :=
  match x with
  | JArray elems => Ok elems
  | JObject items => Ok (map (fun kv => JStr (fst kv)) items)
  | JStr s =>
      Ok (map (fun c => JStr (String c EmptyString)) (list_ascii_of_string s))
  | _ =>
      Raise (Exn "TypeError" ("'" +:+ type_name x +:+ "' object is not iterable"))
  end.

(** [[item.get("text", "") for item in content
      if isinstance(item, dict) and "text" in item]] *)
Fixpoint text_values (parts : list json) : list json :=
  match parts with
  | [] => []
  | JObject items :: rest =>
      match lookup "text" items with
      | Some v => v :: text_values rest
      | None => text_values rest
      end
  | _ :: rest => text_values rest
  end.

(** The items of [sep.join(xs)]: each has to be a string. *)
Fixpoint join_items (i : nat) (xs : list json) : result (list string) :=
  match xs with
  | [] => Ok []
  | JStr s :: rest => rbind (join_items (S i) rest) (fun l => Ok (s :: l))
  | x :: _ =>
      Raise (Exn "TypeError"
               ("sequence item " +:+ pretty i +:+ ": expected str instance, "
                +:+ type_name x +:+ " found"))
  end.

Definition str_join (sep : string) (xs : list json) : result string :=
  rbind (join_items 0 xs) (fun l => Ok (String.concat sep l)).

(** [x == s], [s] a string: only the same string is equal to it. *)
Definition str_eq (x : json) (s : string) : bool :=
  match x with
  | JStr t => bool_decide (t = s)
  | _ => false
  end.

(** One turn of the loop over [request_dict["input"]]: the messages it
    appends. *)
Definition translate_one (msg : json) : result (list message) :=
  rbind (subscript msg "content") (fun content =>
  rbind (match content with
         | JArray parts => rbind (str_join " " (text_values parts))
                                 (fun s => Ok (JStr s))
         | _ => Ok content
         end) (fun content =>
  rbind (subscript msg "role") (fun role =>
  if str_eq role "user"
  then rbind (construct HumanMessage content) (fun m => Ok [m])
  else if str_eq role "assistant"
  then rbind (construct AIMessage content) (fun m => Ok [m])
  else if str_eq role "system"
  then rbind (construct SystemMessage content) (fun m => Ok [m])
  else Ok []))).

Fixpoint translate (input : list json) : result (list message) :=
  match input with
  | [] => Ok []
  | msg :: rest =>
      rbind (translate_one msg) (fun ms =>
      rbind (translate rest) (fun ms' => Ok (ms ++ ms')))
  end.

(** [output_state['messages'][-1].content] *)
Definition final_text (messages : list message) : result string :=
  match last messages with
  | Some m => Ok (content_of m)
  | None => Raise (Exn "IndexError" "list index out of range")
  end.

Section Predict.

(** [self.app.invoke]: a run of the compiled graph from the given
    messages.  It gives the messages of the final state, or raises;
    the calls to the model endpoint and to the platform all happen in
    here. *)
Variable app_invoke : list message -> result (list message).

(** The identifier the [n]-th call of [uuid.uuid4()] gives. *)
Variable uuid4 : nat -> string.

Definition respond (n : nat) (text : string) : ResponsesAgentResponse :=
  {| response_id := uuid4 n;
     output := [create_text_output_item text (uuid4 (S n))] |}.

(** [predict], on the dict [request.model_dump()] (or [request.dict()],
    or the request itself) gives; [n] identifiers were drawn before the
    call.  The result comes with the list of graph runs made, each by
    the messages it started from. *)
Definition predict (n : nat) (request_dict : list (string * json))
  : result ResponsesAgentResponse * list (list message) :=
  match lookup "input" request_dict with
  | None => (Ok (respond n "Error: Model received invalid request format."), [])
  | Some input =>
      match rbind (len input) (fun _ =>
            rbind (iterate input) translate) with
      | Raise e => (Raise e, [])
      | Ok langgraph_messages =>
          (match rbind (app_invoke langgraph_messages) final_text with
           | Ok text => Ok (respond n text)
           | Raise e =>
               Ok (respond n ("Sorry, an error occurred: " +:+ exn_str e))
           end,
           [langgraph_messages])
      end
  end.

End Predict.

(** *** The translation as the specification words it *)

(** The [text] of a part that is a dict with a [text]. *)
Definition spec_part_text (part : json) : option string :=
  match part with
  | JObject items =>
      match lookup "text" items with
      | Some (JStr t) => Some t
      | _ => None
      end
  | _ => None
  end.

(** A flat string as it is; a list of parts as the texts of its text
    parts, in order, joined by single spaces. *)
Definition spec_content (content : json) : string :=
  match content with
  | JStr s => s
  | JArray parts => String.concat " " (omap spec_part_text parts)
  | _ => ""
  end.

Definition spec_message (msg : json) : list message :=
  match msg with
  | JObject items =>
      match lookup "role" items, lookup "content" items with
      | Some (JStr role), Some content =>
          if decide (role = "user") then [HumanMessage (spec_content content)]
          else if decide (role = "assistant") then [AIMessage (spec_content content)]
          else if decide (role = "system") then [SystemMessage (spec_content content)]
          else []
      | _, _ => []
      end
  | _ => []
  end.

Definition spec_translate (input : list json) : list message :=
  flat_map spec_message input.

(** A part a join can take: not a dict whose [text] is something other
    than a string. *)
Definition well_formed_part (part : json) : bool :=
  match part with
  | JObject items =>
      match lookup "text" items with
      | Some (JStr _) | None => true
      | Some _ => false
      end
  | _ => true
  end.

Definition well_formed_content (content : json) : bool :=
  match content with
  | JStr _ => true
  | JArray parts => forallb well_formed_part parts
  | _ => false
  end.

(** An inbound item: a dict with a [role] and a [content], the content a
    string or a list of parts. *)
Definition well_formed_message (msg : json) : bool :=
  match msg with
  | JObject items =>
      match lookup "role" items, lookup "content" items with
      | Some _, Some content => well_formed_content content
      | _, _ => false
      end
  | _ => false
  end.

(** *** Sample surroundings *)

(** A graph whose model endpoint cannot be reached. *)
Definition unreachable_graph (messages : list message) : result (list message) :=
  Raise (Exn "ConnectionError" "model endpoint unreachable").

(** A graph that answers at once. *)
Definition answering_graph (messages : list message) : result (list message) :=
  Ok (messages ++ [AIMessage "There are no clusters."]).

Definition numbered_uuid (n : nat) : string := "uuid-" +:+ pretty n.

Definition demo_input : list json :=
  [ JObject [("role", JStr "system"); ("content", JStr "Be brief.")];
    JObject [("role", JStr "user");
             ("content",
              JArray [JObject [("type", JStr "input_text"); ("text", JStr "list")];
                      JObject [("type", JStr "input_image")];
                      JStr "stray";
                      JObject [("type", JStr "input_text"); ("text", JStr "clusters")]])];
    JObject [("role", JStr "tool"); ("content", JStr "[]")];
    JObject [("role", JStr "assistant"); ("content", JStr "None found.")] ].

End Adapter.

(** ** The traversal of [fix_schema_recursive] and the loop that uses it *)

Module Traversal.
Import Schema.

(** [visits h v l]: the call on [v] gets to the object at [l].  It enters
    the values of a dict and the elements of a list, but not the value
    that sat under the disallowed key: the key goes before the loop over
    the items starts. *)
Inductive visits (h : store) : val -> loc -> Prop :=
| visits_here l : visits h (VRef l) l
| visits_step l ob c l' :
    h !! l = Some ob -> In c (children (strip_obj ob)) -> visits h c l' ->
    visits h (VRef l) l'.

(** The loop of [Graphbuilder.__init__] over the tools, run on the dicts
    [convert_to_openai_tool] gives for them:

<<
    openai_tools = []
    for tool in self.tools:
        tool_dict = convert_to_openai_tool(tool)
        fix_schema_recursive(tool_dict)
        openai_tools.append(tool_dict)
>>
    The result is the list [openai_tools] and the store after the loop. *)
Fixpoint openai_tools (fuel : nat) (tool_dicts : list val) (h : store)
  : option (list val * store) :=
  match tool_dicts with
  | [] => Some ([], h)
  | tool_dict :: rest =>
      match fix_schema_recursive fuel tool_dict h with
      | Some (_, h1) =>
          match openai_tools fuel rest h1 with
          | Some (done, h2) => Some (tool_dict :: done, h2)
          | None => None
          end
      | None => None
      end
  end.

(** A dict that holds itself. *)
Definition cyclic_store : store :=
  [ ODict [("type", VStr "object"); ("items", VRef 1)];
    OList [VRef 0] ].

(** Two tool dicts that share the dict at location 0. *)
Definition two_tools_store : store :=
  [ ODict [("type", VStr "string"); (AP, VBool false)];
    ODict [("name", VStr "list_clusters"); ("parameters", VRef 0); (AP, VBool false)];
    ODict [("name", VStr "list_jobs"); ("parameters", VRef 0)];
    ODict [(AP, VRef 4)];
    ODict [(AP, VBool true); ("type", VStr "object")] ].

End Traversal.

(** ** Notions for further statements about the tools *)

Module ToolShapes.
Import Json Tools.

(** What every request of [tools.py] has in common: the headers of
    [_get_auth_headers], the timeout of 30 seconds, a URL that starts
    with the base URL. *)
Definition standard_request (w : world) (req : http_request) : Prop :=
  req_headers req =
    [("Authorization", "Bearer " +:+ DATABRICKS_TOKEN w);
     ("Content-Type", "application/json")] /\
  req_timeout req = 30 /\
  exists path, req_url req = DATABRICKS_BASE_URL w +:+ path.

(** The tools that call [response.json()]. *)
Definition reads_body (c : call) : bool :=
  match c with
  | call_list_service_principal _ _ _ _ _ _ _
  | call_create_service_principal _ _ _
  | call_get_service_principal_details _
  | call_list_of_scopes
  | call_list_acl_scopes _
  | call_list_clusters
  | call_get_cluster_info _
  | call_list_jobs _ _ _ _
  | call_get_job_details _ _ => true
  | _ => false
  end.

(** What a tool returns when its request is answered without an error
    status: the response body, or one field of it, or a status object of
    its own. *)
Inductive kind :=
| raw_body
| list_field (key : string)
| status_object.

(** The kind of each tool's [return] in its [try] block.  [get_secret]
    sends no request and [cancel_job] returns a sentence: they have
    none. *)
Definition returns (c : call) : option kind :=
  match c with
  | call_list_service_principal _ _ _ _ _ _ _
  | call_create_service_principal _ _ _
  | call_get_service_principal_details _
  | call_list_acl_scopes _
  | call_get_cluster_info _
  | call_list_jobs _ _ _ _
  | call_get_job_details _ _ => Some raw_body
  | call_list_of_scopes => Some (list_field "scopes")
  | call_list_clusters => Some (list_field "clusters")
  | call_delete_service_principal _
  | call_create_scope _ _ _
  | call_add_secret _ _ _ _
  | call_delete_secret _ _
  | call_delete_scope _
  | call_create_acl_scopes _ _ _
  | call_delete_acl_scopes _ _
  | call_terminate_clusters _
  | call_start_cluster _
  | call_restart_cluster _
  | call_start_job _ _ => Some status_object
  | call_get_secret _ _
  | call_cancel_job _ => None
  end.

(** A world whose platform answers every request with status 200 and a
    body that is not JSON. *)
Definition answering_no_json : world :=
  answering {| status_code := 200; reason := "OK";
               resp_url := "https://adb.example.net";
               resp_json := Raise (Exn "JSONDecodeError"
                                     "Expecting value: line 1 column 1 (char 0)") |}.

(** A world with no network at all. *)
Definition offline_world : world :=
  {| DATABRICKS_BASE_URL := "https://adb.example.net";
     DATABRICKS_TOKEN := "dapi0";
     http := fun _ => Raise (Exn "ConnectionError" "Connection refused");
     dbutils_secrets_get := None |}.

End ToolShapes.

(** ** Further sample surroundings of [predict] *)

Module AdapterSamples.
Import Json Adapter.

(** A graph whose final state holds no message. *)
Definition silent_graph (messages : list message) : result (list message) :=
  Ok [].

(** The item every output of [predict] consists of. *)
Definition text_item (id text : string) : output_item :=
  {| item_type := "message";
     item_id := id;
     item_content := [{| part_type := "output_text"; part_text := text |}];
     item_role := "assistant" |}.

End AdapterSamples.

(** ** The graph of [Graphbuilder] *)

Module Graph.

Definition SYSTEM_PROMPT : string :=
  "You are a helpful assistant. You have access to tools to answer questions".

(** The two nodes [build_graph] adds. *)
Inductive node := agent | tools.

Section Run.

(** The messages of the state: those [predict] builds, the responses of
    the model, the results of the tools. *)
Variable message : Type.

(** [SystemMessage(content=...)] *)
Variable SystemMessage : string -> message.

(** [self.llm_with_tools.invoke]: the model's response to a conversation,
    or the exception the call to the endpoint raises. *)
Variable llm_with_tools_invoke : list message -> result message.

(** Whether a message asks for tool calls; [tools_condition] routes on
    it. *)
Variable has_tool_calls : message -> bool.

(** The node [ToolNode(tools=self.tools)]: the result messages for the
    calls the last message asks for. *)
Variable tool_node : list message -> result (list message).

(** [agent_function]: the update it returns for the state's messages. *)
Definition agent_function (messages : list message) : result (list message) :=
  let input_messages := [SystemMessage SYSTEM_PROMPT] ++ messages in
  rbind (llm_with_tools_invoke input_messages) (fun response => Ok [response]).

(** [tools_condition] on the messages of the state: [true] for the edge
    to [tools], [false] for the edge to [END]. *)
Definition tools_condition (messages : list message) : bool :=
  match last messages with
  | Some m => has_tool_calls m
  | None => false
  end.

(** A run of the compiled graph from node [at_node], of at most [limit]
    steps:

<<
    graph_builder.add_edge(START, 'agent')
    graph_builder.add_conditional_edges('agent', tools_condition,
                                        {"tools": "tools", END: END})
    graph_builder.add_edge('tools', 'agent')
>>
    The update a node returns is appended to the messages of the state.
    The result is the final messages, or the exception that ended the
    run, and the nodes that ran, in order. *)
Fixpoint run_from (limit : nat) (at_node : node) (messages : list message)
  : result (list message) * list node :=
  match limit with
  | O => (Raise (Exn "GraphRecursionError" "Recursion limit reached"), [])
  | S limit' =>
      match at_node with
      | agent =>
          match agent_function messages with
          | Raise e => (Raise e, [agent])
          | Ok update =>
              let messages := messages ++ update in
              if tools_condition messages
              then let (r, ran) := run_from limit' tools messages in (r, agent :: ran)
              else (Ok messages, [agent])
          end
      | tools =>
          match tool_node messages with
          | Raise e => (Raise e, [tools])
          | Ok update =>
              let (r, ran) := run_from limit' agent (messages ++ update) in
              (r, tools :: ran)
          end
      end
  end.

(** [self.app.invoke(initial_state)]: the run from the entry edge. *)
Definition app_invoke (limit : nat) (messages : list message)
  : result (list message) :=
  fst (run_from limit agent messages).

End Run.

Arguments agent_function {message}.
Arguments tools_condition {message}.
Arguments run_from {message}.
Arguments app_invoke {message}.

(** [agent], then [tools] and [agent] again, [k] times. *)
Fixpoint rounds (k : nat) : list node :=
  match k with
  | O => [agent]
  | S k' => agent :: tools :: rounds k'
  end.

(** *** A sample conversation: the model asks for a tool once, then
    answers *)

Inductive sample_message :=
| Sys (text : string)
| Human (text : string)
| AI (text : string) (tool_calls : list string)
| ToolResult (text : string).

Definition sample_asks (m : sample_message) : bool :=
  match m with
  | AI _ (_ :: _) => true
  | _ => false
  end.

Definition sample_llm (messages : list sample_message) : result sample_message :=
  match last messages with
  | Some (ToolResult text) => Ok (AI ("The clusters are " +:+ text) [])
  | _ => Ok (AI "" ["list_clusters"])
  end.

Definition sample_tool_node (messages : list sample_message)
  : result (list sample_message) :=
  Ok [ToolResult "[]"].

(** A model that answers at once, in the messages of [predict]. *)
Definition direct_llm (messages : list Adapter.message) : result Adapter.message :=
  Ok (Adapter.AIMessage "There are no clusters.").

(** A model whose endpoint cannot be reached. *)
Definition failing_llm (messages : list Adapter.message) : result Adapter.message :=
  Raise (Exn "ConnectionError" "model endpoint unreachable").

Definition never_asks (m : Adapter.message) : bool := false.

Definition no_tool_node (messages : list Adapter.message)
  : result (list Adapter.message) := Ok [].

End Graph.

(** * Facts *)

(** ** Schema normalisation *)

Section SchemaFacts.
Import Schema.

Lemma dict_has_del key items : dict_has key (dict_del key items) = false.
Proof.
  induction items as [|[k v] rest IH]; simpl; [reflexivity|].
  destruct (decide (k = key)) as [->|Hne]; [exact IH|].
  simpl. destruct (decide (k = key)); [contradiction|exact IH].
Qed.

Lemma dict_del_absent key items :
  dict_has key items = false -> dict_del key items = items.
Proof.
  induction items as [|[k v] rest IH]; simpl; [reflexivity|].
  destruct (decide (k = key)); [discriminate|].
  intros H. now rewrite IH.
Qed.

Lemma dict_del_In key items k v :
  In (k, v) (dict_del key items) -> In (k, v) items.
Proof.
  induction items as [|[k0 v0] rest IH]; simpl; [tauto|].
  destruct (decide (k0 = key)); simpl; intuition.
Qed.

Lemma strip_obj_idem ob : strip_obj (strip_obj ob) = strip_obj ob.
Proof.
  destruct ob as [items|elems]; simpl; [|reflexivity].
  now rewrite (dict_del_absent AP _ (dict_has_del AP items)).
Qed.

Lemma children_strip ob c : In c (children (strip_obj ob)) -> In c (children ob).
Proof.
  destruct ob as [items|elems]; simpl; [|tauto].
  rewrite !in_map_iff. intros [[k v] [E HI]]. exists (k, v). split; [exact E|].
  eapply dict_del_In; eauto.
Qed.

(** The call on a container, with the membership test folded into the
    deletion. *)
Lemma fix_schema_ref fuel l h ob :
  h !! l = Some ob ->
  fix_schema_recursive (S fuel) (VRef l) h =
  pair (VRef l) <$>
    for_each (fun v h0 => snd <$> fix_schema_recursive fuel v h0)
             (children (strip_obj ob)) (<[l := strip_obj ob]> h).
Proof.
  intros Hl. cbn [fix_schema_recursive]. rewrite Hl.
  destruct ob as [items|elems]; cbn [strip_obj children].
  - destruct (dict_has AP items) eqn:E; [reflexivity|].
    now rewrite (dict_del_absent _ _ E).
  - now rewrite (list_insert_id _ _ _ Hl).
Qed.

Lemma stripped_refl h : stripped h h.
Proof. split; [reflexivity|]. intros; now left. Qed.

Lemma stripped_trans h1 h2 h3 : stripped h1 h2 -> stripped h2 h3 -> stripped h1 h3.
Proof.
  intros [L1 S1] [L2 S2]. split; [congruence|].
  intros l ob Hl. destruct (S1 l ob Hl) as [H|H]; destruct (S2 _ _ H) as [H'|H'];
    rewrite ?strip_obj_idem in H'; auto.
Qed.

Lemma stripped_insert h l ob :
  h !! l = Some ob -> stripped h (<[l := strip_obj ob]> h).
Proof.
  intros Hl. split; [apply length_insert|].
  intros l' ob' Hl'. destruct (decide (l = l')) as [<-|Hne].
  - right. rewrite list_lookup_insert_eq by (eapply lookup_lt_Some; eauto).
    congruence.
  - left. now rewrite list_lookup_insert_ne.
Qed.

Lemma for_each_stripped f :
  (forall v h h', f v h = Some h' -> stripped h h') ->
  forall xs h h', for_each f xs h = Some h' -> stripped h h'.
Proof.
  intros Hf xs. induction xs as [|x rest IH]; simpl; intros h h' H.
  - inversion H; apply stripped_refl.
  - destruct (f x h) as [h1|] eqn:E; [|discriminate].
    eapply stripped_trans; eauto.
Qed.

Lemma fix_schema_same_object fuel v h r h' :
  fix_schema_recursive fuel v h = Some (r, h') -> r = v.
Proof.
  destruct fuel as [|fuel]; [discriminate|]. simpl.
  destruct v; try (intros H; inversion H; reflexivity).
  destruct (h !! l) as [[items|elems]|]; [| |discriminate];
    (match goal with |- context [for_each ?f ?xs ?s] => destruct (for_each f xs s) end);
    simpl; intros H; inversion H; reflexivity.
Qed.

Lemma fix_schema_stripped fuel : forall v h r h',
  fix_schema_recursive fuel v h = Some (r, h') -> stripped h h'.
Proof.
  induction fuel as [|fuel IH]; [discriminate|].
  intros v h r h'. destruct v; try (simpl; intros H; inversion H; apply stripped_refl).
  destruct (h !! l) as [ob|] eqn:Hl; [|simpl; rewrite Hl; discriminate].
  rewrite (fix_schema_ref _ _ _ _ Hl).
  destruct (for_each _ _ _) as [h1|] eqn:E; [|discriminate].
  simpl. intros H; inversion H; subst.
  eapply stripped_trans; [apply stripped_insert; eauto|].
  eapply for_each_stripped; [|exact E].
  intros v0 h0 h0'. cbv beta. destruct (fix_schema_recursive fuel v0 h0) as [[r0 s0]|] eqn:E0; [|simpl; intros H0; discriminate H0].
  simpl. intros H0; inversion H0; subst. eapply IH; eauto.
Qed.

Lemma reach_stripped h h' v l : stripped h h' -> reach h' v l -> reach h v l.
Proof.
  intros [HL HS] R. induction R as [l|l ob c l' Hl Hc R IH]; [constructor|].
  destruct (h !! l) as [ob0|] eqn:E.
  - destruct (HS _ _ E) as [H|H]; rewrite H in Hl; inversion Hl; subst.
    + eapply reach_step; eauto.
    + eapply reach_step; eauto using children_strip.
  - apply lookup_ge_None in E. apply lookup_lt_Some in Hl. lia.
Qed.

Lemma clean_stripped h h' v : stripped h h' -> clean h v -> clean h' v.
Proof.
  intros HS C l items R Hl.
  pose proof (reach_stripped _ _ _ _ HS R) as R0.
  destruct HS as [HL HS].
  destruct (h !! l) as [ob0|] eqn:E.
  - destruct ob0 as [items0|elems0].
    + pose proof (C _ _ R0 E) as Hno.
      destruct (HS _ _ E) as [H|H]; rewrite H in Hl; inversion Hl; subst; auto.
      apply dict_has_del.
    + destruct (HS _ _ E) as [H|H]; rewrite H in Hl; inversion Hl.
  - apply lookup_ge_None in E. apply lookup_lt_Some in Hl. lia.
Qed.

Lemma clean_child h l ob c :
  h !! l = Some ob -> In c (children ob) -> clean h (VRef l) -> clean h c.
Proof. intros Hl Hc C l' items R. apply C. eapply reach_step; eauto. Qed.

Lemma reach_inv h l l' :
  reach h (VRef l) l' ->
  l' = l \/ exists ob c, h !! l = Some ob /\ In c (children ob) /\ reach h c l'.
Proof. intros R. inversion R; subst; eauto 6. Qed.

(** After the loop over [xs], every element of [xs] is clean. *)
Lemma for_each_clean f :
  (forall v h h', f v h = Some h' -> stripped h h' /\ clean h' v) ->
  forall xs h h', for_each f xs h = Some h' ->
    forall c, In c xs -> clean h' c.
Proof.
  intros Hf xs. induction xs as [|x rest IH]; simpl; intros h h' H c Hc; [tauto|].
  destruct (f x h) as [h1|] eqn:E; [|discriminate].
  destruct Hc as [<-|Hc]; [|eapply IH; eauto].
  destruct (Hf _ _ _ E) as [_ C].
  eapply clean_stripped; [|exact C].
  eapply for_each_stripped; [|exact H]. intros; eapply Hf; eauto.
Qed.

Lemma fix_schema_clean fuel : forall v h r h',
  fix_schema_recursive fuel v h = Some (r, h') -> clean h' v.
Proof.
  induction fuel as [|fuel IH]; [discriminate|].
  intros v h r h'.
  destruct v; try solve [intros _ l0 items R; inversion R].
  destruct (h !! l) as [ob|] eqn:Hl; [|simpl; rewrite Hl; discriminate].
  rewrite (fix_schema_ref _ _ _ _ Hl).
  destruct (for_each _ _ _) as [h1|] eqn:E; [|discriminate].
  simpl. intros H; inversion H; subst. clear H.
  assert (Hcall : forall v h0 h0',
             snd <$> fix_schema_recursive fuel v h0 = Some h0' ->
             stripped h0 h0' /\ clean h0' v).
  { intros v h0 h0'. destruct (fix_schema_recursive fuel v h0) as [[r0 s0]|] eqn:E0;
      [|simpl; intros H0; discriminate H0].
    simpl. intros H0; inversion H0; subst.
    split; [eapply fix_schema_stripped|eapply IH]; eauto. }
  assert (HS : stripped (<[l := strip_obj ob]> h) h').
  { eapply for_each_stripped; [|exact E].
    intros v0 h0 h0' H0; exact (proj1 (Hcall _ _ _ H0)). }
  assert (Hl' : h' !! l = Some (strip_obj ob)).
  { assert (Hins : <[l := strip_obj ob]> h !! l = Some (strip_obj ob))
      by (apply list_lookup_insert_eq; eapply lookup_lt_Some; eauto).
    destruct HS as [_ HS].
    destruct (HS _ _ Hins) as [H|H]; rewrite ?strip_obj_idem in H; exact H. }
  intros l' items R Hit.
  apply reach_inv in R. destruct R as [->|(ob' & c & Hob & Hc & R)].
  - rewrite Hl' in Hit. destruct ob; inversion Hit. apply dict_has_del.
  - rewrite Hl' in Hob. inversion Hob; subst ob'.
    eapply (for_each_clean _ Hcall _ _ _ E c Hc); eauto.
Qed.

Lemma children_strip_strip ob : children (strip_obj (strip_obj ob)) = children (strip_obj ob).
Proof. now rewrite strip_obj_idem. Qed.

Lemma nested_stripped h h' v n : stripped h h' -> nested h v n -> nested h' v n.
Proof.
  intros [HL HS] N. induction N as [| | | | |l ob n Hl Hc IH]; try constructor.
  destruct (HS _ _ Hl) as [H|H]; eapply nested_ref; eauto.
  rewrite children_strip_strip. exact IH.
Qed.

Lemma nested_unstripped h h' v n : stripped h h' -> nested h' v n -> nested h v n.
Proof.
  intros [HL HS] N. induction N as [| | | | |l ob n Hl Hc IH]; try constructor.
  destruct (h !! l) as [ob0|] eqn:E.
  - eapply nested_ref; [exact E|].
    destruct (HS _ _ E) as [H|H]; rewrite H in Hl; inversion Hl; subst; auto.
    rewrite children_strip_strip in IH. exact IH.
  - apply lookup_ge_None in E. apply lookup_lt_Some in Hl. lia.
Qed.

Lemma nested_le h v n : nested h v n -> forall m, (n <= m)%nat -> nested h v m.
Proof.
  induction 1 as [| | | | |l ob n Hl Hc IH]; intros m Hm;
    (destruct m as [|m]; [lia|]); try constructor.
  eapply nested_ref; eauto. intros c Hin. apply IH; [exact Hin|lia].
Qed.

Lemma for_each_total f n :
  (forall v h, nested h v n -> exists h', f v h = Some h' /\ stripped h h') ->
  forall xs h, (forall c, In c xs -> nested h c n) ->
    exists h', for_each f xs h = Some h'.
Proof.
  intros Hf xs. induction xs as [|x rest IH]; simpl; intros h Hn; [eauto|].
  destruct (Hf x h) as (h1 & E & HS); [auto|]. rewrite E.
  apply IH. intros c Hc. eapply nested_stripped; eauto.
Qed.

(** A structure nested at most [n] deep is processed with fuel [n]. *)
Lemma fix_schema_total n : forall v h,
  nested h v n -> exists h', fix_schema_recursive n v h = Some (v, h').
Proof.
  induction n as [|n IH]; intros v h N; [inversion N|].
  inversion N as [| | | | |l ob n0 Hl Hc]; subst; try (eexists; reflexivity).
  rewrite (fix_schema_ref _ _ _ _ Hl).
  destruct (for_each_total (fun v h0 => snd <$> fix_schema_recursive n v h0) n)
    with (xs := children (strip_obj ob)) (h := <[l := strip_obj ob]> h)
    as [h' E].
  - intros v0 h0 N0. destruct (IH _ _ N0) as [h1 E1]. exists h1.
    rewrite E1. split; [reflexivity|]. eapply fix_schema_stripped; eauto.
  - intros c Hin. eapply nested_stripped; [apply stripped_insert; eauto|auto].
  - rewrite E. eexists; reflexivity.
Qed.

Lemma for_each_noop f xs h :
  (forall c, In c xs -> f c h = Some h) -> for_each f xs h = Some h.
Proof.
  induction xs as [|x rest IH]; simpl; intros Hf; [reflexivity|].
  rewrite Hf by auto. apply IH. auto.
Qed.

(** On a structure that is already clean the call changes nothing. *)
Lemma fix_schema_noop n : forall v h,
  clean h v -> nested h v n -> fix_schema_recursive n v h = Some (v, h).
Proof.
  induction n as [|n IH]; intros v h C N; [inversion N|].
  inversion N as [| | | | |l ob n0 Hl Hc]; subst; try reflexivity.
  rewrite (fix_schema_ref _ _ _ _ Hl).
  assert (Hob : strip_obj ob = ob).
  { destruct ob as [items|elems]; simpl; [|reflexivity].
    f_equal. apply dict_del_absent. eapply C; [constructor|eauto]. }
  rewrite Hob in *. rewrite (list_insert_id _ _ _ Hl).
  rewrite for_each_noop; [reflexivity|].
  intros c Hin. rewrite IH; [reflexivity| |auto].
  eapply clean_child; eauto.
Qed.

Lemma for_each_nested f n :
  (forall v h h', f v h = Some h' -> stripped h h' /\ nested h v n) ->
  forall xs h h', for_each f xs h = Some h' ->
    forall c, In c xs -> nested h c n.
Proof.
  intros Hf xs. induction xs as [|x rest IH]; simpl; intros h h' H c Hc; [tauto|].
  destruct (f x h) as [h1|] eqn:E; [|discriminate].
  destruct (Hf _ _ _ E) as [HS N].
  destruct Hc as [<-|Hc]; [exact N|].
  eapply nested_unstripped; [exact HS|]. eapply IH; eauto.
Qed.

(** A call that returns with fuel [n] ran on a structure nested at most
    [n] deep. *)
Lemma fix_schema_nested n : forall v h r h',
  fix_schema_recursive n v h = Some (r, h') -> nested h v n.
Proof.
  induction n as [|n IH]; [discriminate|].
  intros v h r h'. destruct v; try (intros _; constructor).
  destruct (h !! l) as [ob|] eqn:Hl; [|simpl; rewrite Hl; discriminate].
  rewrite (fix_schema_ref _ _ _ _ Hl).
  destruct (for_each _ _ _) as [h1|] eqn:E; [|discriminate].
  intros _. eapply nested_ref; [exact Hl|].
  intros c Hin. eapply nested_unstripped; [apply stripped_insert; exact Hl|].
  eapply for_each_nested; [|exact E|exact Hin].
  intros v0 h0 h0'. cbv beta.
  destruct (fix_schema_recursive n v0 h0) as [[r0 s0]|] eqn:E0;
    [|simpl; intros H0; discriminate H0].
  simpl. intros H0; inversion H0; subst.
  split; [eapply fix_schema_stripped|eapply IH]; eauto.
Qed.

Lemma for_each_ext f g xs : forall h h',
  (forall c h0 h1, In c xs -> f c h0 = Some h1 -> g c h0 = Some h1) ->
  for_each f xs h = Some h' -> for_each g xs h = Some h'.
Proof.
  induction xs as [|x rest IH]; simpl; intros h h' Hfg; [auto|].
  destruct (f x h) as [h1|] eqn:E; [|discriminate].
  rewrite (Hfg _ _ _ (or_introl eq_refl) E). apply IH. eauto.
Qed.

(** More fuel does not change the outcome. *)
Lemma fix_schema_fuel n : forall m v h r h',
  fix_schema_recursive n v h = Some (r, h') -> (n <= m)%nat ->
  fix_schema_recursive m v h = Some (r, h').
Proof.
  induction n as [|n IH]; [discriminate|].
  intros m v h r h' H Hle. destruct m as [|m]; [lia|].
  destruct v; try exact H.
  destruct (h !! l) as [ob|] eqn:Hl; [|simpl in H; rewrite Hl in H; discriminate].
  rewrite (fix_schema_ref _ _ _ _ Hl) in H.
  destruct (for_each _ _ _) as [h1|] eqn:E in H; [|simpl in H; discriminate H].
  rewrite (fix_schema_ref _ _ _ _ Hl).
  assert (E' : for_each (fun v h0 => snd <$> fix_schema_recursive m v h0)
                 (children (strip_obj ob)) (<[l := strip_obj ob]> h) = Some h1).
  { eapply for_each_ext; [|exact E]. intros c h0 h2 _. cbv beta.
    destruct (fix_schema_recursive n c h0) as [[r0 s0]|] eqn:E0;
      [|simpl; intros H0; discriminate H0].
    rewrite (IH m _ _ _ _ E0) by lia. auto. }
  rewrite E'. exact H.
Qed.

(** A second call finds nothing left to do. *)
Lemma fix_schema_again n v h r h' :
  fix_schema_recursive n v h = Some (r, h') ->
  fix_schema_recursive n r h' = Some (r, h').
Proof.
  intros H. pose proof (fix_schema_same_object _ _ _ _ _ H) as ->.
  apply fix_schema_noop.
  - eapply fix_schema_clean; eauto.
  - eapply nested_stripped; [eapply fix_schema_stripped|eapply fix_schema_nested]; eauto.
Qed.

Lemma demo_store_run :
  fix_schema_recursive 5 (VRef 3) demo_store = Some (VRef 3, demo_store_fixed).
Proof. vm_compute. reflexivity. Qed.

Lemma demo_store_nested : nested demo_store (VRef 3) 5.
Proof. exact (fix_schema_nested _ _ _ _ _ demo_store_run). Qed.

(** C5 (as stated) fails: the call is not free of side effects.  The dict
    passed in is itself changed: after the call the store holds it
    without the key. *)
Lemma fix_schema_mutates_argument :
  let arg := [ODict [(AP, VBool false); ("type", VStr "object")]] in
  exists h', fix_schema_recursive 2 (VRef 0) arg = Some (VRef 0, h') /\ h' <> arg.
Proof.
  exists [ODict [("type", VStr "object")]]. split; [vm_compute; reflexivity|].
  intros H. discriminate H.
Qed.

(** C6: applying [fix_schema_recursive] to its own result gives that
    result again, object and store alike, on every structure of dicts
    and lists nested to any depth [n]. *)
Theorem fix_schema_idempotent n x h :
  nested h x n ->
  exists y h', fix_schema_recursive n x h = Some (y, h') /\
               fix_schema_recursive n y h' = Some (y, h').
Proof.
  intros N. destruct (fix_schema_total _ _ _ N) as [h' E]. exists x, h'.
  split; [exact E|]. eapply fix_schema_again; eauto.
Qed.

Lemma fix_schema_idempotent_witness :
  nested demo_store (VRef 3) 5 /\
  exists y h', fix_schema_recursive 5 (VRef 3) demo_store = Some (y, h') /\
               fix_schema_recursive 5 y h' = Some (y, h').
Proof.
  split; [exact demo_store_nested|].
  apply (fix_schema_idempotent 5 (VRef 3) demo_store), demo_store_nested.
Defined.
End SchemaFacts.

Section LoadFacts.
Import Json Schema Load.

Lemma json_induction (P : json -> Prop) :
  P JNull -> (forall b, P (JBool b)) -> (forall n, P (JInt n)) ->
  (forall f, P (JFloat f)) -> (forall s, P (JStr s)) ->
  (forall elems, Forall P elems -> P (JArray elems)) ->
  (forall items, Forall (fun kv => P (snd kv)) items -> P (JObject items)) ->
  forall t, P t.
Proof.
  intros Hnull Hbool Hint Hfloat Hstr Harr Hobj.
  fix IH 1. intros [| b | n | f | s | elems | items];
    [exact Hnull | apply Hbool | apply Hint | apply Hfloat | apply Hstr
    | apply Harr | apply Hobj].
  - induction elems as [|e rest IHrest]; constructor; [apply IH|exact IHrest].
  - induction items as [|kv rest IHrest]; constructor; [apply IH|exact IHrest].
Qed.

Lemma nested_app h h2 v n : nested h v n -> nested (h ++ h2) v n.
Proof.
  induction 1 as [| | | | |l ob n Hl Hc IH]; try constructor.
  eapply nested_ref; [|exact IH]. now apply lookup_app_l_Some.
Qed.

Lemma nested_fresh h ob n :
  (forall c, In c (children ob) -> nested h c n) ->
  nested (h ++ [ob]) (VRef (length h)) (S n).
Proof.
  intros Hc. eapply nested_ref.
  - rewrite lookup_app_r by lia. now rewrite Nat.sub_diag.
  - intros c Hin. apply nested_app. apply Hc. now apply children_strip.
Qed.

(** Loading only adds objects to the store, and what it builds is no
    deeper than the value. *)
Lemma build_spec t : forall h,
  (exists h2, snd (build t h) = h ++ h2) /\
  nested (snd (build t h)) (fst (build t h)) (S (depth t)).
Proof.
  induction t as [| b | n | f | s | elems IH | items IH] using json_induction;
    intros h; try (split; [exists []; simpl; now rewrite app_nil_r|constructor]).
  - simpl.
    set (step := fun e acc => let '(vs, h0) := acc in
                              let '(v, h1) := build e h0 in (v :: vs, h1)).
    set (d := fold_right (fun e d => Nat.max (depth e) d) O elems).
    assert (H : (exists h2, snd (fold_right step ([], h) elems) = h ++ h2) /\
                forall c, In c (fst (fold_right step ([], h) elems)) ->
                          nested (snd (fold_right step ([], h) elems)) c (S d)).
    { subst d. induction IH as [|e rest He Hrest IHrest]; simpl.
      - split; [exists []; now rewrite app_nil_r|tauto].
      - destruct IHrest as [[h2 Hh2] Hn].
        destruct (fold_right step ([], h) rest) as [vs h0] eqn:E. simpl in *.
        destruct (He h0) as [[h3 Hh3] Hne].
        destruct (build e h0) as [v h1] eqn:Eb. simpl in *. subst.
        split; [exists (h2 ++ h3); now rewrite app_assoc|].
        intros c [<-|Hin].
        + eapply nested_le; [exact Hne|lia].
        + apply nested_app. eapply nested_le; [apply Hn; exact Hin|lia]. }
    destruct (fold_right step ([], h) elems) as [vs h1]. simpl in *.
    destruct H as [[h2 ->] Hn]. split.
    + exists (h2 ++ [OList vs]). now rewrite app_assoc.
    + apply nested_fresh. exact Hn.
  - simpl.
    set (step := fun kv acc => let '(kvs, h0) := acc in
                               let '(v, h1) := build (snd kv) h0 in
                               ((fst kv, v) :: kvs, h1)).
    set (d := fold_right (fun kv d => Nat.max (depth (snd kv)) d) O items).
    assert (H : (exists h2, snd (fold_right step ([], h) items) = h ++ h2) /\
                forall c, In c (map snd (fst (fold_right step ([], h) items))) ->
                          nested (snd (fold_right step ([], h) items)) c (S d)).
    { subst d. induction IH as [|kv rest He Hrest IHrest]; simpl.
      - split; [exists []; now rewrite app_nil_r|tauto].
      - destruct IHrest as [[h2 Hh2] Hn].
        destruct (fold_right step ([], h) rest) as [kvs h0] eqn:E. simpl in *.
        destruct (He h0) as [[h3 Hh3] Hne].
        destruct (build (snd kv) h0) as [v h1] eqn:Eb. simpl in *. subst.
        split; [exists (h2 ++ h3); now rewrite app_assoc|].
        intros c [<-|Hin].
        + eapply nested_le; [exact Hne|lia].
        + apply nested_app. eapply nested_le; [apply Hn; exact Hin|lia]. }
    destruct (fold_right step ([], h) items) as [kvs h1]. simpl in *.
    destruct H as [[h2 ->] Hn]. split.
    + exists (h2 ++ [ODict kvs]). now rewrite app_assoc.
    + apply nested_fresh. exact Hn.
Qed.

(** Any JSON value, laid out in any store: the call returns, leaves the
    value clean, and a second call changes nothing. *)
Lemma fix_schema_on_tree t h :
  exists h',
    fix_schema_recursive (S (depth t)) (fst (build t h)) (snd (build t h))
      = Some (fst (build t h), h') /\
    clean h' (fst (build t h)) /\
    fix_schema_recursive (S (depth t)) (fst (build t h)) h'
      = Some (fst (build t h), h').
Proof.
  destruct (build_spec t h) as [_ N].
  destruct (fix_schema_total _ _ _ N) as [h' E]. exists h'.
  split; [exact E|]. split; [eapply fix_schema_clean|eapply fix_schema_again]; eauto.
Qed.

End LoadFacts.

(** ** The REST tools *)

Section ToolsFacts.
Import Json Tools.

Lemma raise_for_status_ok r :
  ~ 400 <= status_code r < 600 -> raise_for_status r = (Ok tt, []).
Proof.
  intros H. unfold raise_for_status.
  destruct (400 <=? status_code r) eqn:E1; destruct (status_code r <? 500) eqn:E2;
    destruct (500 <=? status_code r) eqn:E3; destruct (status_code r <? 600) eqn:E4;
    simpl; try reflexivity; exfalso; apply H; lia.
Qed.

Lemma raise_for_status_error r :
  400 <= status_code r < 600 -> exists e, raise_for_status r = (Raise e, []).
Proof.
  intros H. unfold raise_for_status.
  destruct (400 <=? status_code r) eqn:E1; destruct (status_code r <? 500) eqn:E2;
    destruct (500 <=? status_code r) eqn:E3; destruct (status_code r <? 600) eqn:E4;
    simpl; try (eexists; reflexivity); exfalso; lia.
Qed.

Ltac unfold_tool :=
  cbv [invoke
       list_service_principal create_service_principal
       get_service_principal_details delete_service_principal
       list_of_scopes create_scope add_secret delete_secret delete_scope
       get_secret create_acl_scopes list_acl_scopes delete_acl_scopes
       list_clusters terminate_clusters start_cluster get_cluster_info
       restart_cluster start_job list_jobs cancel_job get_job_details
       send bind try_except].

Lemma error_payload_is tool e : is_error_payload tool (error_payload tool e).
Proof. eexists; reflexivity. Qed.

(** When its request fails, a tool returns the error payload; the name
    in it is the one its [except] branch spells out. *)
Lemma tool_failure_payload loads w c :
  (forall req, failing (http w req)) ->
  (forall scope key, c <> call_get_secret scope key) ->
  is_error_payload (except_name c) (fst (invoke loads w c)).
Proof.
  intros Hf Hc.
  destruct c; try (exfalso; eapply Hc; reflexivity); unfold_tool;
    try (match goal with
         | |- context [set_job_parameters ?l ?p ?d] =>
             destruct (set_job_parameters l p d) as [[rd|e0] sent0];
             [|apply error_payload_is]
         end);
    match goal with
    | |- context [http w ?req] =>
        pose proof (Hf req) as Hreq; destruct (http w req) as [r|e]; simpl in Hreq;
        [destruct (raise_for_status_error r Hreq) as [e ->]|];
        apply error_payload_is
    end.
Qed.

(** C2 (the code departs from it): with the request failing, [add_secret],
    [cancel_job] and [get_job_details] return an error payload whose
    [tool] is [create_secret], [list_jobs] and [get_job], not the names
    they are registered under. *)
Theorem error_payload_names_other_tool :
  (is_error_payload "create_secret"
     (fst (add_secret placeholder_world "s1" "k1" (Some "v1") None)) /\
   registered_name (call_add_secret "s1" "k1" (Some "v1") None) = "add_secret") /\
  (is_error_payload "list_jobs" (fst (cancel_job placeholder_world 7)) /\
   registered_name (call_cancel_job 7) = "cancel_job") /\
  (is_error_payload "get_job" (fst (get_job_details placeholder_world 7 None)) /\
   registered_name (call_get_job_details 7 None) = "get_job_details").
Proof.
  repeat split; try reflexivity; unfold_tool;
    cbn [http placeholder_world fst]; apply error_payload_is.
Qed.

(** C8: [list_clusters], answered with status 200 and the body
    [{"clusters": [{"cluster_id": "c1"}]}], returns the text
    [[{"cluster_id": "c1"}]]: the list under [clusters], serialised. *)
Theorem list_clusters_returns_extracted_list w r :
  http w {| req_verb := GET;
            req_url := DATABRICKS_BASE_URL w +:+ "/api/2.1/clusters/list";
            req_headers := _get_auth_headers w;
            req_json := None; req_timeout := 30 |} = Ok r ->
  status_code r = 200 ->
  resp_json r =
    Ok (JObject [("clusters", JArray [JObject [("cluster_id", JStr "c1")]])]) ->
  fst (list_clusters w) =
    "[{" +:+ quoted "cluster_id" +:+ ": " +:+ quoted "c1" +:+ "}]".
Proof.
  intros Hreq Hst Hbody. unfold_tool. rewrite Hreq.
  rewrite raise_for_status_ok by lia.
  unfold response_json, lift. rewrite Hbody. vm_compute. reflexivity.
Qed.

Lemma list_clusters_returns_extracted_list_witness :
  fst (list_clusters
         (answering (ok_response
            (JObject [("clusters", JArray [JObject [("cluster_id", JStr "c1")]])]))))
  = "[{" +:+ quoted "cluster_id" +:+ ": " +:+ quoted "c1" +:+ "}]".
Proof.
  apply (list_clusters_returns_extracted_list _
           (ok_response
              (JObject [("clusters", JArray [JObject [("cluster_id", JStr "c1")]])])));
    reflexivity.
Defined.

(** C9: [delete_secret(scope="s1", key="k1")], its POST answered with
    status 200, returns
    [{"status": "Success", "message": "Secret with key k1 deleted successfully."}]. *)
Theorem delete_secret_success_text w r :
  http w {| req_verb := POST;
            req_url := DATABRICKS_BASE_URL w +:+ "/api/2.0/secrets/delete";
            req_headers := _get_auth_headers w;
            req_json := Some (JObject [("scope", JStr "s1"); ("key", JStr "k1")]);
            req_timeout := 30 |} = Ok r ->
  status_code r = 200 ->
  fst (delete_secret w "s1" "k1") =
    "{" +:+ quoted "status" +:+ ": " +:+ quoted "Success" +:+ ", "
        +:+ quoted "message" +:+ ": "
        +:+ quoted "Secret with key k1 deleted successfully." +:+ "}".
Proof.
  intros Hreq Hst. unfold_tool. rewrite Hreq.
  rewrite raise_for_status_ok by lia. vm_compute. reflexivity.
Qed.

Lemma delete_secret_success_text_witness :
  fst (delete_secret (answering (ok_response (JObject []))) "s1" "k1") =
    "{" +:+ quoted "status" +:+ ": " +:+ quoted "Success" +:+ ", "
        +:+ quoted "message" +:+ ": "
        +:+ quoted "Secret with key k1 deleted successfully." +:+ "}".
Proof.
  apply (delete_secret_success_text _ (ok_response (JObject []))); reflexivity.
Defined.

(** C10: [start_job] given job parameters that are a non-empty text
    [json.loads] rejects sends no request and returns the payload
    [{"error": ..., "tool": "start_job"}], the error being the parser's
    message behind the fixed prefix. *)
Theorem start_job_rejects_bad_parameters loads w job_id text e :
  text <> "" ->
  loads text = Raise e ->
  start_job loads w job_id (Some text) =
    (dumps (JObject [("error", JStr ("Databricks API Error: " +:+ exn_str e));
                     ("tool", JStr "start_job")]),
     []).
Proof.
  intros Hne Hbad. unfold_tool. unfold set_job_parameters, bind, lift.
  destruct (decide (text = "")) as [E|_]; [contradiction|].
  rewrite Hbad. reflexivity.
Qed.

Lemma start_job_rejects_bad_parameters_witness :
  start_job loads_empty_object placeholder_world 7 (Some "not json") =
    (dumps (JObject [("error",
                      JStr ("Databricks API Error: "
                            +:+ "Expecting value: line 1 column 1 (char 0)"));
                     ("tool", JStr "start_job")]),
     []).
Proof.
  apply (start_job_rejects_bad_parameters loads_empty_object placeholder_world 7
           "not json"
           (Exn "JSONDecodeError" "Expecting value: line 1 column 1 (char 0)"));
    [intros H; discriminate H|reflexivity].
Defined.

(** C4 (as stated) fails: [delete_secret], answered with status 200 and
    the body [{}], returns neither that body nor a list taken from it. *)
Lemma delete_secret_not_response_body :
  ~ raw_or_extracted []
      (fst (delete_secret (answering (ok_response (JObject []))) "s1" "k1")).
Proof.
  intros [H|[key H]]; vm_compute in H; discriminate H.
Qed.

(** What [cancel_job] returns on success is a sentence, not JSON. *)
Lemma cancel_job_success_text :
  fst (cancel_job (answering (ok_response (JObject []))) 7) =
    "Job: 7 cancelled succesfully".
Proof. reflexivity. Qed.

Ltac run_answered loads :=
  let w := fresh "w" in let r := fresh "r" in
  let Hsent := fresh "Hsent" in let Hreq := fresh "Hreq" in
  let Hst := fresh "Hst" in let body := fresh "body" in
  let Hbody := fresh "Hbody" in
  intros w r Hsent Hreq Hst body Hbody; revert Hsent; unfold_tool;
  try (unfold set_job_parameters, bind, lift, ret;
       match goal with
       | |- context [match ?p with Some _ => _ | None => _ end] =>
           destruct p as [?text|];
           [match goal with
            | |- context [decide (?t = "")] =>
                destruct (decide (t = "")); [|destruct (loads t)]
            end|]
       end;
       try (simpl; congruence));
  rewrite !Hreq, !(raise_for_status_ok r Hst);
  unfold response_json, lift, json_get, ret; rewrite ?Hbody; cbn [fst snd app];
  intros _; reflexivity.

(** C4 (as amended): a tool other than [cancel_job] whose request is
    answered without an error status, the body a JSON object, returns
    serialised JSON.  For [list_service_principal],
    [create_service_principal], [get_service_principal_details],
    [list_acl_scopes], [get_cluster_info], [list_jobs] and
    [get_job_details] it is the body; for [list_of_scopes] and
    [list_clusters] it is what the body has under [scopes] and under
    [clusters], the empty list where it has nothing there; for the other
    eleven it is a status object whose message is fixed by the arguments
    of the call, whatever the response. *)
Theorem tool_success_text loads c k :
  ToolShapes.returns c = Some k ->
  exists message,
    forall w r body,
      snd (invoke loads w c) <> [] ->
      (forall req, http w req = Ok r) ->
      ~ 400 <= status_code r < 600 ->
      resp_json r = Ok (JObject body) ->
      fst (invoke loads w c) =
        match k with
        | ToolShapes.raw_body => dumps (JObject body)
        | ToolShapes.list_field key =>
            dumps (match lookup key body with Some v => v | None => JArray [] end)
        | ToolShapes.status_object =>
            dumps (JObject [("status", JStr "Success"); ("message", JStr message)])
        end.
Proof.
  intros Hk.
  assert (Hrun : forall message,
    (forall w r,
       snd (invoke loads w c) <> [] ->
       (forall req, http w req = Ok r) ->
       ~ 400 <= status_code r < 600 ->
       forall body, resp_json r = Ok (JObject body) ->
       fst (invoke loads w c) =
         match k with
         | ToolShapes.raw_body => dumps (JObject body)
         | ToolShapes.list_field key =>
             dumps (match lookup key body with Some v => v | None => JArray [] end)
         | ToolShapes.status_object =>
             dumps (JObject [("status", JStr "Success"); ("message", JStr message)])
         end) ->
    exists message0,
      forall w r body,
        snd (invoke loads w c) <> [] ->
        (forall req, http w req = Ok r) ->
        ~ 400 <= status_code r < 600 ->
        resp_json r = Ok (JObject body) ->
        fst (invoke loads w c) =
          match k with
          | ToolShapes.raw_body => dumps (JObject body)
          | ToolShapes.list_field key =>
              dumps (match lookup key body with Some v => v | None => JArray [] end)
          | ToolShapes.status_object =>
              dumps (JObject [("status", JStr "Success"); ("message", JStr message0)])
          end).
  { intros message H. exists message. intros w r body H1 H2 H3 H4. eauto. }
  destruct c; simpl in Hk; inversion Hk; subst k; clear Hk;
    first [ solve [apply (Hrun ""); run_answered loads]
          | solve [eapply Hrun; run_answered loads] ].
Qed.

Lemma tool_success_text_witness :
  exists message,
    fst (invoke loads_empty_object (answering (ok_response (JObject [])))
           (call_delete_secret "s1" "k1")) =
    dumps (JObject [("status", JStr "Success"); ("message", JStr message)]).
Proof.
  destruct (tool_success_text loads_empty_object (call_delete_secret "s1" "k1")
              ToolShapes.status_object eq_refl) as [message H].
  exists message.
  apply (H (answering (ok_response (JObject []))) (ok_response (JObject [])) []).
  - vm_compute. intros E; discriminate E.
  - reflexivity.
  - simpl. lia.
  - reflexivity.
Defined.

End ToolsFacts.

(** ** The request adapter *)

Section AdapterFacts.
Import Json Adapter.

Lemma join_items_text_values parts : forall i,
  forallb well_formed_part parts = true ->
  join_items i (text_values parts) = Ok (omap spec_part_text parts).
Proof.
  induction parts as [|p rest IH]; intros i Hwf; [reflexivity|].
  simpl in Hwf. apply andb_prop in Hwf as [Hp Hrest].
  destruct p as [| | | | | |items]; simpl; auto.
  simpl in Hp. destruct (lookup "text" items) as [v|]; [|auto].
  destruct v; try discriminate Hp. simpl. now rewrite IH.
Qed.

Lemma translate_one_spec msg :
  well_formed_message msg = true -> translate_one msg = Ok (spec_message msg).
Proof.
  destruct msg as [| | | | | |items]; try discriminate. simpl.
  unfold translate_one, subscript.
  destruct (lookup "role" items) as [role|] eqn:Hrole; [|discriminate].
  destruct (lookup "content" items) as [content|] eqn:Hcontent; [|discriminate].
  intros Hwf. simpl.
  assert (Hc : match content with
               | JArray parts =>
                   rbind (str_join " " (text_values parts)) (fun s => Ok (JStr s))
               | _ => Ok content
               end = Ok (JStr (spec_content content))).
  { destruct content; try discriminate Hwf; [reflexivity|].
    simpl in Hwf. unfold str_join.
    rewrite (join_items_text_values _ _ Hwf). reflexivity. }
  rewrite Hc. simpl.
  destruct role as [| | | |role| |]; try reflexivity.
  unfold str_eq. repeat case_bool_decide; repeat case_decide; congruence.
Qed.

Lemma translate_spec input :
  forallb well_formed_message input = true ->
  translate input = Ok (spec_translate input).
Proof.
  induction input as [|msg rest IH]; [reflexivity|].
  simpl. intros Hwf. apply andb_prop in Hwf as [Hmsg Hrest].
  rewrite (translate_one_spec _ Hmsg), (IH Hrest). reflexivity.
Qed.

(** C7 (as stated) fails: not every item with another role is dropped.
    The loop reads [content] before it looks at the role, so an item of
    role [tool] that has no [content] makes it raise [KeyError], and
    [predict] with it. *)
Lemma predict_raises_on_tool_item_without_content :
  translate [JObject [("role", JStr "tool")]] = Raise (Exn "KeyError" "'content'") /\
  predict answering_graph numbered_uuid 0
    [("input", JArray [JObject [("role", JStr "tool")]])] =
  (Raise (Exn "KeyError" "'content'"), []).
Proof. split; reflexivity. Qed.

(** C7 (as amended): on a list of inbound items, each a dict with a
    role and a content that is a string or a list of parts (where a part
    is a dict with a [text], that [text] a string), the translation in
    [predict] gives a [HumanMessage] for [user], an [AIMessage] for
    [assistant], a [SystemMessage] for [system] and nothing for any other
    role; a list content is replaced by the [text] values of its parts
    that are dicts with a [text], in order, joined by spaces, the other
    parts dropped.  These are the messages the graph is run on. *)
Theorem predict_translates_by_role app uuid n request_dict input :
  lookup "input" request_dict = Some (JArray input) ->
  forallb well_formed_message input = true ->
  translate input = Ok (spec_translate input) /\
  snd (predict app uuid n request_dict) = [spec_translate input].
Proof.
  intros Hin Hwf. split; [exact (translate_spec input Hwf)|].
  unfold predict. rewrite Hin. simpl. rewrite (translate_spec _ Hwf). reflexivity.
Qed.

Lemma predict_translates_by_role_witness :
  translate demo_input =
    Ok [SystemMessage "Be brief."; HumanMessage "list clusters";
        AIMessage "None found."] /\
  snd (predict answering_graph numbered_uuid 0 [("input", JArray demo_input)]) =
    [[SystemMessage "Be brief."; HumanMessage "list clusters";
      AIMessage "None found."]].
Proof.
  apply (predict_translates_by_role answering_graph numbered_uuid 0
           [("input", JArray demo_input)] demo_input); reflexivity.
Defined.

(** C3: on a request with no [input], [predict] returns the error
    response and runs the graph not once. *)
Theorem predict_without_input app uuid n request_dict :
  lookup "input" request_dict = None ->
  predict app uuid n request_dict =
    (Ok {| response_id := uuid n;
           output := [create_text_output_item
                        "Error: Model received invalid request format."
                        (uuid (S n))] |},
     []).
Proof. intros H. unfold predict. rewrite H. reflexivity. Qed.

Lemma predict_without_input_witness :
  predict answering_graph numbered_uuid 0 [("messages", JArray demo_input)] =
    (Ok {| response_id := "uuid-0";
           output := [create_text_output_item
                        "Error: Model received invalid request format."
                        "uuid-1"] |},
     []).
Proof.
  apply (predict_without_input answering_graph numbered_uuid 0
           [("messages", JArray demo_input)]).
  reflexivity.
Defined.

(** C1 (as stated) fails: the loop that translates the messages runs
    before the [try]; an item without [content] makes it raise
    [KeyError], and [predict] lets that through. *)
Lemma predict_raises_on_item_without_content :
  predict answering_graph numbered_uuid 0
    [("input", JArray [JObject [("role", JStr "user")]])] =
  (Raise (Exn "KeyError" "'content'"), []).
Proof. reflexivity. Qed.

(** C1 (as amended): on a request whose [input] is a list of items, each
    a dict with a role and a content that is a string or a list of
    parts, [predict] returns a response; and when the run of the graph
    raises, the response is the error response, its text the exception's
    message behind [Sorry, an error occurred: ]. *)
Theorem predict_returns_response app uuid n request_dict input :
  lookup "input" request_dict = Some (JArray input) ->
  forallb well_formed_message input = true ->
  exists response,
    fst (predict app uuid n request_dict) = Ok response /\
    forall e, app (spec_translate input) = Raise e ->
      response =
        {| response_id := uuid n;
           output := [create_text_output_item
                        ("Sorry, an error occurred: " +:+ exn_str e)
                        (uuid (S n))] |}.
Proof.
  intros Hin Hwf. unfold predict. rewrite Hin. simpl.
  rewrite (translate_spec _ Hwf).
  destruct (app (spec_translate input)) as [messages|e0] eqn:Happ; simpl.
  - destruct (final_text messages) as [text|e1]; eexists; (split; [reflexivity|]);
      intros e He; discriminate He.
  - eexists. split; [reflexivity|]. intros e He. inversion He. reflexivity.
Qed.

Lemma predict_returns_response_witness :
  exists response,
    fst (predict unreachable_graph numbered_uuid 0 [("input", JArray demo_input)])
      = Ok response /\
    forall e, unreachable_graph (spec_translate demo_input) = Raise e ->
      response =
        {| response_id := numbered_uuid 0;
           output := [create_text_output_item
                        ("Sorry, an error occurred: " +:+ exn_str e)
                        (numbered_uuid 1)] |}.
Proof.
  apply (predict_returns_response unreachable_graph numbered_uuid 0
           [("input", JArray demo_input)] demo_input); reflexivity.
Defined.
End AdapterFacts.

(** * Further facts *)

(** ** What [fix_schema_recursive] touches *)

Section TraversalFacts.
Import Schema Traversal.

Lemma stripped_lookup h h' l ob :
  stripped h h' -> h !! l = Some ob ->
  exists ob', h' !! l = Some ob' /\ strip_obj ob' = strip_obj ob.
Proof.
  intros [_ HS] Hl. destruct (HS _ _ Hl) as [H|H]; eexists; (split; [exact H|]);
    [reflexivity|apply strip_obj_idem].
Qed.

Lemma stripped_lookup_inv h h' l ob' :
  stripped h h' -> h' !! l = Some ob' ->
  exists ob, h !! l = Some ob /\ strip_obj ob' = strip_obj ob.
Proof.
  intros HS Hl'. destruct (h !! l) as [ob|] eqn:E.
  - destruct (stripped_lookup _ _ _ _ HS E) as (ob2 & H2 & Hs).
    exists ob. split; [reflexivity|]. congruence.
  - destruct HS as [HL _].
    apply lookup_ge_None in E. apply lookup_lt_Some in Hl'. lia.
Qed.

Lemma visits_stripped h h' v l : stripped h h' -> visits h v l -> visits h' v l.
Proof.
  intros HS V. induction V as [l|l ob c l' Hl Hc V IH]; [constructor|].
  destruct (stripped_lookup _ _ _ _ HS Hl) as (ob' & Hl' & Hs).
  eapply visits_step; [exact Hl'| |exact IH]. now rewrite Hs.
Qed.

Lemma visits_unstripped h h' v l : stripped h h' -> visits h' v l -> visits h v l.
Proof.
  intros HS V. induction V as [l|l ob' c l' Hl' Hc V IH]; [constructor|].
  destruct (stripped_lookup_inv _ _ _ _ HS Hl') as (ob & Hl & Hs).
  eapply visits_step; [exact Hl| |exact IH]. now rewrite <- Hs.
Qed.

Lemma visits_reach h v l : visits h v l -> reach h v l.
Proof.
  induction 1 as [l|l ob c l' Hl Hc V IH]; [constructor|].
  eapply reach_step; eauto using children_strip.
Qed.

Lemma call_stripped fuel v h h' :
  snd <$> fix_schema_recursive fuel v h = Some h' -> stripped h h'.
Proof.
  destruct (fix_schema_recursive fuel v h) as [[r s]|] eqn:E;
    [|intros H; discriminate H].
  simpl. intros H; inversion H; subst. eapply fix_schema_stripped; eauto.
Qed.

Lemma for_each_frame f l :
  (forall v h h', f v h = Some h' ->
     stripped h h' /\ (~ visits h v l -> h' !! l = h !! l)) ->
  forall xs h h', for_each f xs h = Some h' ->
    (forall c, In c xs -> ~ visits h c l) -> h' !! l = h !! l.
Proof.
  intros Hf xs. induction xs as [|x rest IH]; simpl; intros h h' H Hn.
  - inversion H; reflexivity.
  - destruct (f x h) as [h1|] eqn:E; [|discriminate].
    destruct (Hf _ _ _ E) as [HS Hx].
    rewrite (IH _ _ H), Hx; auto.
    intros c Hc V. apply (Hn c); [auto|]. eapply visits_unstripped; eauto.
Qed.

Lemma fix_schema_frame_aux fuel : forall v h r h' l,
  fix_schema_recursive fuel v h = Some (r, h') ->
  ~ visits h v l -> h' !! l = h !! l.
Proof.
  induction fuel as [|fuel IH]; [discriminate|].
  intros v h r h' l. destruct v; try (simpl; intros H _; inversion H; reflexivity).
  rename l0 into l0.
  destruct (h !! l0) as [ob|] eqn:Hl; [|simpl; rewrite Hl; discriminate].
  rewrite (fix_schema_ref _ _ _ _ Hl).
  destruct (for_each _ _ _) as [h1|] eqn:E; [|discriminate].
  simpl. intros H Hn; inversion H; subst. clear H.
  assert (Hne : l0 <> l) by (intros ->; apply Hn; constructor).
  rewrite <- (list_lookup_insert_ne h l0 l (strip_obj ob) Hne).
  eapply for_each_frame; [|exact E|].
  - intros v0 h0 h0' H0. split; [eapply call_stripped; exact H0|].
    cbv beta in H0.
    destruct (fix_schema_recursive fuel v0 h0) as [[r0 s0]|] eqn:E0;
      [|discriminate H0].
    simpl in H0. inversion H0; subst. eapply IH; eauto.
  - intros c Hc V. apply Hn. eapply visits_step; [exact Hl|exact Hc|].
    eapply visits_unstripped; [apply stripped_insert; exact Hl|exact V].
Qed.

Lemma for_each_strips f l :
  (forall v h h', f v h = Some h' ->
     stripped h h' /\
     (forall ob, visits h v l -> h !! l = Some ob -> h' !! l = Some (strip_obj ob))) ->
  forall xs h h', for_each f xs h = Some h' ->
    forall c ob, In c xs -> visits h c l -> h !! l = Some ob ->
      h' !! l = Some (strip_obj ob).
Proof.
  intros Hf xs. induction xs as [|x rest IH]; simpl; intros h h' H c ob Hc V Hl; [tauto|].
  destruct (f x h) as [h1|] eqn:E; [|discriminate].
  destruct (Hf _ _ _ E) as [HS Hx].
  assert (HS' : stripped h1 h').
  { eapply for_each_stripped; [|exact H]. intros; eapply Hf; eauto. }
  destruct Hc as [<-|Hc].
  - destruct (stripped_lookup _ _ _ _ HS' (Hx _ V Hl)) as (ob' & Hl' & Hs).
    destruct HS' as [_ HS']. destruct (HS' _ _ (Hx _ V Hl)) as [H1|H1];
      rewrite H1; now rewrite ?strip_obj_idem.
  - destruct (stripped_lookup _ _ _ _ HS Hl) as (ob1 & Hl1 & Hs1).
    rewrite <- Hs1. eapply IH; eauto. eapply visits_stripped; eauto.
Qed.

Lemma fix_schema_strips_aux fuel : forall v h r h' l ob,
  fix_schema_recursive fuel v h = Some (r, h') ->
  visits h v l -> h !! l = Some ob -> h' !! l = Some (strip_obj ob).
Proof.
  induction fuel as [|fuel IH]; [discriminate|].
  intros v h r h' l ob. destruct v; try (intros _ V; inversion V; fail).
  destruct (h !! l0) as [ob0|] eqn:Hl0; [|simpl; rewrite Hl0; discriminate].
  rewrite (fix_schema_ref _ _ _ _ Hl0).
  destruct (for_each _ _ _) as [h1|] eqn:E; [|discriminate].
  simpl. intros H V Hl; inversion H; subst. clear H.
  assert (Hcall : forall v h0 h0',
             snd <$> fix_schema_recursive fuel v h0 = Some h0' ->
             stripped h0 h0' /\
             (forall ob, visits h0 v l -> h0 !! l = Some ob ->
                         h0' !! l = Some (strip_obj ob))).
  { intros v h0 h0' H0. split; [eapply call_stripped; exact H0|].
    destruct (fix_schema_recursive fuel v h0) as [[r0 s0]|] eqn:E0;
      [|discriminate H0].
    simpl in H0. inversion H0; subst. intros; eapply IH; eauto. }
  assert (HS1 : stripped h (<[l0 := strip_obj ob0]> h)) by (apply stripped_insert; auto).
  assert (HS : stripped (<[l0 := strip_obj ob0]> h) h').
  { eapply for_each_stripped; [|exact E].
    intros v0 h0 h0' H0; exact (proj1 (Hcall _ _ _ H0)). }
  destruct (stripped_lookup _ _ _ _ HS1 Hl) as (ob1 & Hl1 & Hs1).
  inversion V as [|? ob' c ? Hob Hc V']; subst.
  - destruct (stripped_lookup _ _ _ _ HS Hl1) as (ob2 & Hl2 & Hs2).
    rewrite list_lookup_insert_eq in Hl1 by (eapply lookup_lt_Some; eauto).
    inversion Hl1; subst ob1. rewrite Hl0 in Hl; inversion Hl; subst ob0.
    destruct HS as [_ HS].
    destruct (HS l (strip_obj ob)) as [H1|H1];
      [apply list_lookup_insert_eq; eapply lookup_lt_Some; eauto| |];
      rewrite H1; now rewrite ?strip_obj_idem.
  - rewrite Hl0 in Hob; inversion Hob; subst ob'.
    rewrite <- Hs1.
    eapply (for_each_strips _ l Hcall _ _ _ E c ob1 Hc); [|exact Hl1].
    eapply visits_stripped; eauto.
Qed.

Lemma nested_visits h v n l : nested h v n -> visits h v l -> nested h (VRef l) n.
Proof.
  intros N V. revert n N. induction V as [l|l ob c l' Hl Hc V IH]; intros n N; [exact N|].
  inversion N as [| | | | |? ob' n' Hl' Hn]; subst.
  rewrite Hl in Hl'; inversion Hl'; subst ob'.
  eapply nested_le; [apply IH; apply Hn; exact Hc|lia].
Qed.

Lemma nested_no_cycle h n : forall l ob c,
  nested h (VRef l) n -> h !! l = Some ob ->
  In c (children (strip_obj ob)) -> visits h c l -> False.
Proof.
  induction n as [|n IH]; intros l ob c N Hl Hc V; [inversion N|].
  inversion N as [| | | | |? ob' n' Hl' Hn]; subst.
  rewrite Hl in Hl'; inversion Hl'; subst ob'.
  eapply IH; [|exact Hl|exact Hc|exact V].
  eapply nested_visits; [apply Hn; exact Hc|exact V].
Qed.

Lemma demo_store_visits_inner : visits demo_store (VRef 3) 0.
Proof.
  eapply visits_step; [reflexivity|simpl; right; left; reflexivity|].
  eapply visits_step; [reflexivity|simpl; left; reflexivity|]. constructor.
Qed.

(** C5 (as amended): on every structure of dicts and lists, nested to any
    depth [n], [fix_schema_recursive] returns the object it was given and
    leaves no dict in or under it, inside lists included, holding
    [additionalProperties].  It does so by deleting the key in place, and
    changes nothing else: no object is added to the store or taken from
    it, every object the call gets to is as it was but for that key, and
    every object it does not get to is exactly as it was. *)
Theorem fix_schema_removes_everywhere n v h :
  nested h v n ->
  exists h', fix_schema_recursive n v h = Some (v, h') /\
             clean h' v /\
             length h' = length h /\
             (forall l ob, visits h v l -> h !! l = Some ob ->
                           h' !! l = Some (strip_obj ob)) /\
             (forall l, ~ visits h v l -> h' !! l = h !! l).
Proof.
  intros N. destruct (fix_schema_total _ _ _ N) as [h' E]. exists h'.
  split; [exact E|]. split; [eapply fix_schema_clean; eauto|].
  split; [exact (proj1 (fix_schema_stripped _ _ _ _ _ E))|]. split.
  - intros l ob. eapply fix_schema_strips_aux; eauto.
  - intros l. eapply fix_schema_frame_aux; eauto.
Qed.

Lemma fix_schema_removes_everywhere_witness :
  exists h', fix_schema_recursive 5 (VRef 3) demo_store = Some (VRef 3, h') /\
             clean h' (VRef 3) /\
             length h' = length demo_store /\
             (forall l ob, visits demo_store (VRef 3) l -> demo_store !! l = Some ob ->
                           h' !! l = Some (strip_obj ob)) /\
             (forall l, ~ visits demo_store (VRef 3) l -> h' !! l = demo_store !! l).
Proof.
  apply (fix_schema_removes_everywhere 5 (VRef 3) demo_store), demo_store_nested.
Defined.

(** X1: every container the call gets to, at whatever depth, is left as
    it was but for the disallowed key: the other items of a dict stay, in
    their order, and a list stays as it is. *)
Theorem fix_schema_strips_visited fuel v h r h' l ob :
  fix_schema_recursive fuel v h = Some (r, h') ->
  visits h v l -> h !! l = Some ob ->
  h' !! l = Some (strip_obj ob).
Proof. apply fix_schema_strips_aux. Qed.

Lemma fix_schema_strips_visited_witness :
  demo_store_fixed !! 0%nat = Some (ODict [("type", VStr "string")]).
Proof.
  exact (fix_schema_strips_visited 5 (VRef 3) demo_store (VRef 3) demo_store_fixed 0
           (ODict [("type", VStr "string"); (AP, VBool false)])
           demo_store_run demo_store_visits_inner eq_refl).
Defined.

Lemma two_tools_run :
  fix_schema_recursive 3 (VRef 3) two_tools_store =
    Some (VRef 3,
          [ ODict [("type", VStr "string"); (AP, VBool false)];
            ODict [("name", VStr "list_clusters"); ("parameters", VRef 0);
                   (AP, VBool false)];
            ODict [("name", VStr "list_jobs"); ("parameters", VRef 0)];
            ODict [];
            ODict [(AP, VBool true); ("type", VStr "object")] ]).
Proof. vm_compute. reflexivity. Qed.

Lemma two_tools_not_visited : ~ visits two_tools_store (VRef 3) 4.
Proof.
  intros V. inversion V as [|? ob c ? Hl Hc V']; subst.
  vm_compute in Hl. inversion Hl; subst ob. simpl in Hc. exact Hc.
Qed.

(** X2: an object the call does not get to is left exactly as it was.
    That holds for the objects of other structures, and also for a dict
    that sat only under a deleted [additionalProperties]: it keeps its
    own [additionalProperties]. *)
Theorem fix_schema_leaves_rest fuel v h r h' l :
  fix_schema_recursive fuel v h = Some (r, h') ->
  ~ visits h v l ->
  h' !! l = h !! l.
Proof. apply fix_schema_frame_aux. Qed.

Lemma fix_schema_leaves_rest_witness :
  [ ODict [("type", VStr "string"); (AP, VBool false)];
    ODict [("name", VStr "list_clusters"); ("parameters", VRef 0);
           (AP, VBool false)];
    ODict [("name", VStr "list_jobs"); ("parameters", VRef 0)];
    ODict [];
    ODict [(AP, VBool true); ("type", VStr "object")] ] !! 4%nat
  = two_tools_store !! 4%nat.
Proof.
  exact (fix_schema_leaves_rest 3 (VRef 3) two_tools_store (VRef 3) _ 4
           two_tools_run two_tools_not_visited).
Defined.

Lemma cyclic_store_visits : visits cyclic_store (VRef 1) 0.
Proof.
  eapply visits_step; [reflexivity|simpl; left; reflexivity|]. constructor.
Qed.

(** A dict that holds itself under the disallowed key only: the deletion
    cuts the cycle before the loop over the items, and the call returns. *)
Lemma fix_schema_cycle_under_deleted_key :
  fix_schema_recursive 2 (VRef 0) [ODict [(AP, VRef 0)]] = Some (VRef 0, [ODict []]).
Proof. reflexivity. Qed.

(** X3: on a container that the traversal gets back to from one of the
    values it enters (the values of a dict other than the one under
    [additionalProperties], the elements of a list), the call does not
    come back with a result, however deep the stack may grow. *)
Theorem fix_schema_cycle_no_result fuel h l ob c :
  h !! l = Some ob ->
  In c (children (strip_obj ob)) ->
  visits h c l ->
  fix_schema_recursive fuel (VRef l) h = None.
Proof.
  intros Hl Hc V.
  destruct (fix_schema_recursive fuel (VRef l) h) as [[r h']|] eqn:E; [|reflexivity].
  exfalso. eapply nested_no_cycle; eauto. eapply fix_schema_nested; eauto.
Qed.

Lemma fix_schema_cycle_no_result_witness :
  fix_schema_recursive 1000 (VRef 0) cyclic_store = None.
Proof.
  apply (fix_schema_cycle_no_result 1000 cyclic_store 0
           (ODict [("type", VStr "object"); ("items", VRef 1)]) (VRef 1)).
  - reflexivity.
  - simpl. right. left. reflexivity.
  - exact cyclic_store_visits.
Defined.

Lemma openai_tools_spec n : forall tool_dicts h,
  (forall d, In d tool_dicts -> nested h d n) ->
  exists h', openai_tools n tool_dicts h = Some (tool_dicts, h') /\
             (forall d, In d tool_dicts -> clean h' d) /\ stripped h h' /\
             (forall l ob, (exists d, In d tool_dicts /\ visits h d l) ->
                           h !! l = Some ob -> h' !! l = Some (strip_obj ob)) /\
             (forall l, (forall d, In d tool_dicts -> ~ visits h d l) ->
                        h' !! l = h !! l).
Proof.
  induction tool_dicts as [|d rest IH]; intros h Hn.
  - exists h. split; [reflexivity|]. split; [intros d []|].
    split; [apply stripped_refl|]. split; [intros l ob (d & [] & _)|reflexivity].
  - destruct (fix_schema_total n d h) as [h1 E1]; [apply Hn; now left|].
    pose proof (fix_schema_stripped _ _ _ _ _ E1) as HS1.
    destruct (IH h1) as (h2 & E2 & Hc & HS2 & Hst & Hfr).
    { intros d' Hd'. eapply nested_stripped; [exact HS1|]. apply Hn. now right. }
    exists h2. simpl. rewrite E1, E2. split; [reflexivity|]. split; [|split; [|split]].
    + intros d' [<-|Hd']; [|auto].
      eapply clean_stripped; [exact HS2|]. eapply fix_schema_clean; eauto.
    + eapply stripped_trans; eauto.
    + intros l ob (d' & [<-|Hd'] & V) Hl.
      * pose proof (fix_schema_strips_aux _ _ _ _ _ _ _ E1 V Hl) as Hl1.
        destruct (stripped_lookup _ _ _ _ HS2 Hl1) as (ob2 & Hl2 & Hs2).
        destruct HS2 as [_ HS2]. destruct (HS2 _ _ Hl1) as [H|H]; rewrite H;
          now rewrite ?strip_obj_idem.
      * destruct (stripped_lookup _ _ _ _ HS1 Hl) as (ob1 & Hl1 & Hs1).
        rewrite <- Hs1. apply Hst; [|exact Hl1].
        exists d'. split; [exact Hd'|]. eapply visits_stripped; eauto.
    + intros l Hno.
      rewrite Hfr.
      * eapply fix_schema_frame_aux; [exact E1|]. apply Hno. now left.
      * intros d' Hd' V. apply (Hno d'); [now right|].
        eapply visits_unstripped; eauto.
Qed.

Lemma two_tools_nested :
  forall d, In d [VRef 1; VRef 2] -> nested two_tools_store d 3.
Proof.
  assert (H1 : exists r h', fix_schema_recursive 3 (VRef 1) two_tools_store = Some (r, h'))
    by (vm_compute; eauto).
  assert (H2 : exists r h', fix_schema_recursive 3 (VRef 2) two_tools_store = Some (r, h'))
    by (vm_compute; eauto).
  destruct H1 as (r1 & h1 & E1), H2 as (r2 & h2 & E2).
  intros d [<-|[<-|[]]]; eapply fix_schema_nested; eauto.
Qed.

(** X4: the loop of [Graphbuilder.__init__] hands [bind_tools] the same
    tool dicts, in the same order, and none of them holds
    [additionalProperties] at any depth when the loop is over, also where
    two of them share a part.  The store is changed in nothing else: no
    object is added or taken away, an object the traversal of some tool
    dict gets to is as it was but for that key, and an object that the
    traversal of no tool dict gets to is exactly as it was. *)
Theorem openai_tools_all_clean n tool_dicts h :
  (forall d, In d tool_dicts -> nested h d n) ->
  exists h', openai_tools n tool_dicts h = Some (tool_dicts, h') /\
             (forall d, In d tool_dicts -> clean h' d) /\
             length h' = length h /\
             (forall l ob, (exists d, In d tool_dicts /\ visits h d l) ->
                           h !! l = Some ob -> h' !! l = Some (strip_obj ob)) /\
             (forall l, (forall d, In d tool_dicts -> ~ visits h d l) ->
                        h' !! l = h !! l).
Proof.
  intros Hn. destruct (openai_tools_spec n tool_dicts h Hn)
    as (h' & E & Hc & HS & Hst & Hfr).
  exists h'. split; [exact E|]. split; [exact Hc|].
  split; [exact (proj1 HS)|]. split; assumption.
Qed.

Lemma openai_tools_all_clean_witness :
  exists h', openai_tools 3 [VRef 1; VRef 2] two_tools_store
               = Some ([VRef 1; VRef 2], h') /\
             (forall d, In d [VRef 1; VRef 2] -> clean h' d) /\
             length h' = length two_tools_store /\
             (forall l ob, (exists d, In d [VRef 1; VRef 2] /\
                                      visits two_tools_store d l) ->
                           two_tools_store !! l = Some ob ->
                           h' !! l = Some (strip_obj ob)) /\
             (forall l, (forall d, In d [VRef 1; VRef 2] ->
                                   ~ visits two_tools_store d l) ->
                        h' !! l = two_tools_store !! l).
Proof.
  exact (openai_tools_all_clean 3 [VRef 1; VRef 2] two_tools_store two_tools_nested).
Defined.
End TraversalFacts.

(** ** The REST tools, further *)

Section ToolShapeFacts.
Import Json Tools ToolShapes.

Ltac open_tool :=
  cbv [invoke
       list_service_principal create_service_principal
       get_service_principal_details delete_service_principal
       list_of_scopes create_scope add_secret delete_secret delete_scope
       get_secret create_acl_scopes list_acl_scopes delete_acl_scopes
       list_clusters terminate_clusters start_cluster get_cluster_info
       restart_cluster start_job list_jobs cancel_job get_job_details
       send bind try_except].

Lemma raise_for_status_sends_nothing r : snd (raise_for_status r) = [].
Proof.
  unfold raise_for_status.
  destruct ((400 <=? status_code r) && (status_code r <? 500));
    [reflexivity|].
  destruct ((500 <=? status_code r) && (status_code r <? 600)); reflexivity.
Qed.

Lemma json_get_sends_nothing j key default : snd (json_get j key default) = [].
Proof. destruct j; reflexivity. Qed.

Lemma standard_request_made w v path data :
  standard_request w
    {| req_verb := v; req_url := DATABRICKS_BASE_URL w +:+ path;
       req_headers := _get_auth_headers w; req_json := data; req_timeout := 30 |}.
Proof. repeat split. exists path. reflexivity. Qed.

Lemma string_app_assoc (a b c : string) : (a +:+ b) +:+ c = a +:+ (b +:+ c).
Proof.
  induction a as [|x a IH]; [reflexivity|].
  change (String x ((a +:+ b) +:+ c) = String x (a +:+ (b +:+ c))).
  now rewrite IH.
Qed.

(** X5: a tool call sends one request at most, and a request it sends has
    the bearer token and the JSON content type in its headers, the
    timeout of 30 seconds and a URL under the base URL. *)
Theorem tool_sends_one_standard_request loads w c :
  snd (invoke loads w c) = [] \/
  exists req, snd (invoke loads w c) = [req] /\ standard_request w req.
Proof.
  destruct c; open_tool;
    try (left; unfold dbutils_get, lift; destruct (dbutils_secrets_get w) as [get|];
         [destruct (get scope key)|]; reflexivity);
    try (unfold set_job_parameters, bind, lift, ret;
         destruct job_parameters as [text|];
         [destruct (decide (text = "")); [|destruct (loads text); [|left; reflexivity]]|]);
    right;
    match goal with
    | |- context [http w ?rq] =>
        exists rq; split;
        [ destruct (http w rq) as [r|?]; [|reflexivity];
          pose proof (raise_for_status_sends_nothing r) as Hs;
          destruct (raise_for_status r) as [[[]|?] s0]; simpl in Hs; subst s0;
          [|reflexivity];
          unfold response_json, lift;
          try (destruct (resp_json r) as [b|?]; [|reflexivity]);
          try (match goal with
               | |- context [json_get ?j ?k ?d] =>
                   pose proof (json_get_sends_nothing j k d) as Hg;
                   destruct (json_get j k d) as [[?|?] s2];
                   simpl in Hg; subst s2
               end);
          reflexivity
        | rewrite ?string_app_assoc; apply standard_request_made ]
    end.
Qed.

(** X6: when the network gives no response at all, a tool other than
    [add_secret], [cancel_job] and [get_job_details] that sent its request
    returns exactly [{"error": "Databricks API Error: <message>", "tool":
    <its registered name>}], the message being that of the exception
    [requests] raised. *)
Theorem network_fault_payload loads w c e :
  except_name c = registered_name c ->
  (forall req, http w req = Raise e) ->
  snd (invoke loads w c) <> [] ->
  fst (invoke loads w c) =
    dumps (JObject [("error", JStr ("Databricks API Error: " +:+ exn_str e));
                    ("tool", JStr (registered_name c))]).
Proof.
  intros Hname Hreq.
  destruct c; try discriminate Hname; open_tool;
    try (unfold dbutils_get, lift; destruct (dbutils_secrets_get w) as [get|];
         [destruct (get scope key)|]; simpl; congruence);
    try (unfold set_job_parameters, bind, lift, ret;
         destruct job_parameters as [text|];
         [destruct (decide (text = "")); [|destruct (loads text)]|];
         try (simpl; congruence));
    rewrite !Hreq; intros _; reflexivity.
Qed.

Lemma network_fault_payload_witness :
  fst (invoke loads_empty_object offline_world call_list_clusters) =
    dumps (JObject [("error", JStr "Databricks API Error: Connection refused");
                    ("tool", JStr "list_clusters")]).
Proof.
  apply (network_fault_payload loads_empty_object offline_world call_list_clusters
           (Exn "ConnectionError" "Connection refused")).
  - reflexivity.
  - reflexivity.
  - vm_compute. intros H; discriminate H.
Defined.

(** X7: [get_secret] never sends a request, and what it returns depends
    on [dbutils] alone: not on the base URL, the token or the network. *)
Theorem get_secret_uses_no_network w1 w2 scope key :
  dbutils_secrets_get w1 = dbutils_secrets_get w2 ->
  get_secret w1 scope key = get_secret w2 scope key /\
  snd (get_secret w1 scope key) = [].
Proof.
  intros H. unfold get_secret, dbutils_get, try_except, bind, lift. rewrite H.
  destruct (dbutils_secrets_get w2) as [get|]; [destruct (get scope key)|];
    split; reflexivity.
Qed.

Lemma get_secret_uses_no_network_witness :
  get_secret placeholder_world "s1" "k1" = get_secret offline_world "s1" "k1" /\
  snd (get_secret placeholder_world "s1" "k1") = [].
Proof.
  apply (get_secret_uses_no_network placeholder_world offline_world "s1" "k1").
  reflexivity.
Defined.

(** X8: where a tool tests an optional text for truth ([if value:]), the
    empty text counts as no value: [add_secret] sends neither an empty
    [string_value] nor an empty [bytes_value], [list_jobs] no empty
    [name] or [page_token], [get_job_details] no empty [page_token], and
    [start_job] does not parse empty [job_parameters]. *)
Theorem empty_text_counts_as_absent loads w :
  (forall scope key bytes_value,
     add_secret w scope key (Some "") bytes_value
     = add_secret w scope key None bytes_value) /\
  (forall scope key string_value,
     add_secret w scope key string_value (Some "")
     = add_secret w scope key string_value None) /\
  (forall limit expand_tasks page_token,
     list_jobs w limit expand_tasks (Some "") page_token
     = list_jobs w limit expand_tasks None page_token) /\
  (forall limit expand_tasks name,
     list_jobs w limit expand_tasks name (Some "")
     = list_jobs w limit expand_tasks name None) /\
  (forall job_id,
     get_job_details w job_id (Some "") = get_job_details w job_id None) /\
  (forall job_id,
     start_job loads w job_id (Some "") = start_job loads w job_id None).
Proof. repeat split; intros; reflexivity. Qed.

(** X9: [start_job] given job parameters that [json.loads] accepts sends
    one POST to [/api/2.2/jobs/run-now] whose body holds the job id and,
    under [json_parameters], the parsed value. *)
Theorem start_job_sends_parsed_parameters loads w job_id text v :
  text <> "" ->
  loads text = Ok v ->
  snd (start_job loads w job_id (Some text)) =
    [ {| req_verb := POST;
         req_url := DATABRICKS_BASE_URL w +:+ "/api/2.2/jobs/run-now";
         req_headers := _get_auth_headers w;
         req_json := Some (JObject [("job_id", JInt job_id);
                                    ("json_parameters", v)]);
         req_timeout := 30 |} ].
Proof.
  intros Hne Hok. open_tool. unfold set_job_parameters, bind, lift, ret.
  destruct (decide (text = "")) as [E|_]; [contradiction|]. rewrite Hok.
  cbn [dict_set]. 
  match goal with |- context [http w ?rq] => destruct (http w rq) as [r|?] end;
    [|reflexivity].
  pose proof (raise_for_status_sends_nothing r) as Hs.
  destruct (raise_for_status r) as [[[]|?] s0]; simpl in Hs; subst s0; reflexivity.
Qed.

Lemma start_job_sends_parsed_parameters_witness :
  snd (start_job loads_empty_object offline_world 7 (Some "{}")) =
    [ {| req_verb := POST;
         req_url := "https://adb.example.net" +:+ "/api/2.2/jobs/run-now";
         req_headers := _get_auth_headers offline_world;
         req_json := Some (JObject [("job_id", JInt 7);
                                    ("json_parameters", JObject [])]);
         req_timeout := 30 |} ].
Proof.
  apply (start_job_sends_parsed_parameters loads_empty_object offline_world 7 "{}"
           (JObject [])); [intros H; discriminate H|reflexivity].
Defined.

Lemma sent_after_send w v url data (k : response -> io string) handler :
  (forall r, snd (k r) = []) ->
  snd (try_except (bind (send w v url data) k) handler) =
    [ {| req_verb := v; req_url := url; req_headers := _get_auth_headers w;
         req_json := data; req_timeout := 30 |} ].
Proof.
  intros Hk. unfold try_except, bind, send.
  destruct (http w _) as [r|?]; [|reflexivity].
  specialize (Hk r). destruct (k r) as [[?|?] s0]; simpl in Hk; subst s0; reflexivity.
Qed.

Lemma read_body_sends_nothing r :
  snd (bind (raise_for_status r) (fun _ =>
       bind (response_json r) (fun result => ret (dumps result)))) = [].
Proof.
  unfold bind. pose proof (raise_for_status_sends_nothing r) as Hs.
  destruct (raise_for_status r) as [[[]|?] s0]; simpl in Hs; subst s0; [|reflexivity].
  unfold response_json, lift, ret. destruct (resp_json r); reflexivity.
Qed.

(** X10: [list_service_principal] sends one GET whose body holds exactly
    the arguments that were given: each of the seven optional parameters
    is in the body under its name when it is not [None] (an empty text or
    a zero included) and is not in the body when it is [None]. *)
Theorem list_service_principal_sends_given_arguments
    w filter count sortBy sortOrder startIndex attributes excludedAttributes :
  exists items,
    snd (list_service_principal w filter count sortBy sortOrder startIndex
           attributes excludedAttributes) =
      [ {| req_verb := GET;
           req_url := DATABRICKS_BASE_URL w
                        +:+ "/api/2.0/preview/scim/v2/ServicePrincipals";
           req_headers := _get_auth_headers w;
           req_json := Some (JObject items);
           req_timeout := 30 |} ] /\
    lookup "filter" items = JStr <$> filter /\
    lookup "count" items = JInt <$> count /\
    lookup "sortBy" items = JStr <$> sortBy /\
    lookup "sortOrder" items = JStr <$> sortOrder /\
    lookup "startIndex" items = JInt <$> startIndex /\
    lookup "attributes" items = JStr <$> attributes /\
    lookup "excludedAttributes" items = JStr <$> excludedAttributes /\
    (forall key, lookup key items <> None ->
       In key ["filter"; "count"; "sortBy"; "sortOrder"; "startIndex";
               "attributes"; "excludedAttributes"]).
Proof.
  eexists. split.
  { unfold list_service_principal. apply sent_after_send.
    intros r. apply read_body_sends_nothing. }
  destruct filter, count, sortBy, sortOrder, startIndex, attributes,
    excludedAttributes; (repeat split; try reflexivity);
    intros key; simpl;
    repeat (case_decide; [subst key; simpl; auto 10|]);
    intros Hk; exfalso; apply Hk; reflexivity.
Qed.

(** X11: a tool that returns the response body reports an error when the
    platform answers without an error status but with a body that is not
    JSON: it returns the error payload with the parser's message. *)
Theorem unreadable_body_is_reported loads w c r e :
  reads_body c = true ->
  (forall req, http w req = Ok r) ->
  ~ 400 <= status_code r < 600 ->
  resp_json r = Raise e ->
  exists tool,
    fst (invoke loads w c) =
      dumps (JObject [("error", JStr ("Databricks API Error: " +:+ exn_str e));
                      ("tool", JStr tool)]).
Proof.
  intros Hc Hreq Hst Hbody.
  destruct c; try discriminate Hc; open_tool;
    rewrite !Hreq, !(raise_for_status_ok r Hst);
    unfold response_json, lift; rewrite Hbody; eexists; reflexivity.
Qed.

Lemma unreadable_body_is_reported_witness :
  exists tool,
    fst (invoke loads_empty_object answering_no_json call_list_clusters) =
      dumps (JObject [("error",
                       JStr ("Databricks API Error: "
                             +:+ "Expecting value: line 1 column 1 (char 0)"));
                      ("tool", JStr tool)]).
Proof.
  apply (unreadable_body_is_reported loads_empty_object answering_no_json
           call_list_clusters
           {| status_code := 200; reason := "OK";
              resp_url := "https://adb.example.net";
              resp_json := Raise (Exn "JSONDecodeError"
                                    "Expecting value: line 1 column 1 (char 0)") |}
           (Exn "JSONDecodeError" "Expecting value: line 1 column 1 (char 0)")).
  - reflexivity.
  - reflexivity.
  - simpl. lia.
  - reflexivity.
Defined.

(** X12: a tool that does not read the response body (and is not
    [cancel_job]) returns its status object whenever its request is
    answered without an error status, whatever the body is, JSON or
    not. *)
Theorem status_tools_ignore_body loads w c r :
  reads_body c = false ->
  (forall job_id, c <> call_cancel_job job_id) ->
  snd (invoke loads w c) <> [] ->
  (forall req, http w req = Ok r) ->
  ~ 400 <= status_code r < 600 ->
  status_message (fst (invoke loads w c)).
Proof.
  intros Hc Hcancel Hsent Hreq Hst.
  destruct c; try discriminate Hc; try (exfalso; eapply Hcancel; reflexivity);
    revert Hsent; open_tool;
    try (unfold dbutils_get, lift; destruct (dbutils_secrets_get w) as [get|];
         [destruct (get scope key)|]; simpl; congruence);
    try (unfold set_job_parameters, bind, lift, ret;
         destruct job_parameters as [text|];
         [destruct (decide (text = "")); [|destruct (loads text)]|];
         try (simpl; congruence));
    rewrite !Hreq, !(raise_for_status_ok r Hst); intros _; eexists; reflexivity.
Qed.

Lemma status_tools_ignore_body_witness :
  status_message
    (fst (invoke loads_empty_object answering_no_json (call_delete_secret "s1" "k1"))).
Proof.
  apply (status_tools_ignore_body loads_empty_object answering_no_json
           (call_delete_secret "s1" "k1")
           {| status_code := 200; reason := "OK";
              resp_url := "https://adb.example.net";
              resp_json := Raise (Exn "JSONDecodeError"
                                    "Expecting value: line 1 column 1 (char 0)") |}).
  - reflexivity.
  - intros job_id H; discriminate H.
  - vm_compute. intros H; discriminate H.
  - reflexivity.
  - simpl. lia.
Defined.

(** X13: [list_of_scopes] and [list_clusters], answered with an object
    that has no [scopes] (no [clusters]) field, return the text [[]]. *)
Theorem list_tools_default_to_empty w r items :
  (forall req, http w req = Ok r) ->
  ~ 400 <= status_code r < 600 ->
  resp_json r = Ok (JObject items) ->
  (lookup "scopes" items = None -> fst (list_of_scopes w) = "[]") /\
  (lookup "clusters" items = None -> fst (list_clusters w) = "[]").
Proof.
  intros Hreq Hst Hbody. split; intros Hno; open_tool;
    rewrite !Hreq, !(raise_for_status_ok r Hst);
    unfold response_json, lift, json_get; rewrite Hbody, Hno; reflexivity.
Qed.

Lemma list_tools_default_to_empty_witness :
  (lookup "scopes" [] = None ->
   fst (list_of_scopes (answering (ok_response (JObject [])))) = "[]") /\
  (lookup "clusters" [] = None ->
   fst (list_clusters (answering (ok_response (JObject [])))) = "[]").
Proof.
  apply (list_tools_default_to_empty (answering (ok_response (JObject [])))
           (ok_response (JObject [])) []).
  - reflexivity.
  - simpl. lia.
  - reflexivity.
Defined.

(** X14: [list_of_scopes] and [list_clusters], answered with JSON that is
    not an object (a bare list, say), return the error payload: the body
    has no [get]. *)
Theorem list_tools_need_an_object w r body :
  (forall req, http w req = Ok r) ->
  ~ 400 <= status_code r < 600 ->
  resp_json r = Ok body ->
  (forall items, body <> JObject items) ->
  fst (list_of_scopes w) =
    error_payload "list_of_scopes"
      (Exn "AttributeError"
           ("'" +:+ type_name body +:+ "' object has no attribute 'get'")) /\
  fst (list_clusters w) =
    error_payload "list_clusters"
      (Exn "AttributeError"
           ("'" +:+ type_name body +:+ "' object has no attribute 'get'")).
Proof.
  intros Hreq Hst Hbody Hno. split; open_tool;
    rewrite !Hreq, !(raise_for_status_ok r Hst);
    unfold response_json, lift, json_get; rewrite Hbody;
    destruct body; try reflexivity; exfalso; eapply Hno; reflexivity.
Qed.

Lemma list_tools_need_an_object_witness :
  fst (list_of_scopes (answering (ok_response (JArray [])))) =
    error_payload "list_of_scopes"
      (Exn "AttributeError" "'list' object has no attribute 'get'") /\
  fst (list_clusters (answering (ok_response (JArray [])))) =
    error_payload "list_clusters"
      (Exn "AttributeError" "'list' object has no attribute 'get'").
Proof.
  apply (list_tools_need_an_object (answering (ok_response (JArray [])))
           (ok_response (JArray [])) (JArray [])).
  - reflexivity.
  - simpl. lia.
  - reflexivity.
  - intros items H; discriminate H.
Defined.
End ToolShapeFacts.

(** ** The request adapter, further *)

Section AdapterMoreFacts.
Import Json Adapter AdapterSamples.

(** X15: whatever the request and whatever the graph does, a response
    [predict] returns has the first fresh identifier as its id and
    exactly one output item: a message of role [assistant] with the
    second fresh identifier and one [output_text] part. *)
Theorem predict_response_shape app uuid n request_dict response :
  fst (predict app uuid n request_dict) = Ok response ->
  response_id response = uuid n /\
  exists text, output response = [text_item (uuid (S n)) text].
Proof.
  unfold predict.
  destruct (lookup "input" request_dict) as [input|].
  - destruct (rbind (len input) _) as [messages|e]; [|intros H; discriminate H].
    simpl. destruct (rbind (app messages) final_text) as [text|e];
      intros H; inversion H; subst; (split; [reflexivity|eexists; reflexivity]).
  - simpl. intros H; inversion H; subst. split; [reflexivity|eexists; reflexivity].
Qed.

Lemma predict_response_shape_witness :
  response_id (respond numbered_uuid 0 "There are no clusters.") = "uuid-0" /\
  exists text,
    output (respond numbered_uuid 0 "There are no clusters.")
      = [text_item "uuid-1" text].
Proof.
  apply (predict_response_shape answering_graph numbered_uuid 0
           [("input", JArray demo_input)]
           (respond numbered_uuid 0 "There are no clusters.")).
  reflexivity.
Defined.

(** X16: when the run of the graph returns, the text of the response is
    the content of the last message of the final state, as it is. *)
Theorem predict_returns_last_message app uuid n request_dict input messages final m :
  lookup "input" request_dict = Some (JArray input) ->
  translate input = Ok messages ->
  app messages = Ok final ->
  last final = Some m ->
  fst (predict app uuid n request_dict) =
    Ok {| response_id := uuid n;
          output := [text_item (uuid (S n)) (content_of m)] |}.
Proof.
  intros Hin Htr Happ Hlast. unfold predict. rewrite Hin. simpl.
  rewrite Htr. simpl. rewrite Happ. simpl. unfold final_text. rewrite Hlast.
  reflexivity.
Qed.

Lemma predict_returns_last_message_witness :
  fst (predict answering_graph numbered_uuid 0 [("input", JArray demo_input)]) =
    Ok {| response_id := "uuid-0";
          output := [text_item "uuid-1" "There are no clusters."] |}.
Proof.
  apply (predict_returns_last_message answering_graph numbered_uuid 0
           [("input", JArray demo_input)] demo_input
           [SystemMessage "Be brief."; HumanMessage "list clusters";
            AIMessage "None found."]
           [SystemMessage "Be brief."; HumanMessage "list clusters";
            AIMessage "None found."; AIMessage "There are no clusters."]
           (AIMessage "There are no clusters.")); reflexivity.
Defined.

(** X17: [predict] runs the graph once at most, and not at all when it
    raises: an exception that leaves [predict] was raised before the
    graph was started. *)
Theorem predict_runs_graph_once app uuid n request_dict :
  (length (snd (predict app uuid n request_dict)) <= 1)%nat /\
  (forall e, fst (predict app uuid n request_dict) = Raise e ->
             snd (predict app uuid n request_dict) = []).
Proof.
  unfold predict.
  destruct (lookup "input" request_dict) as [input|]; [|split; [simpl; lia|reflexivity]].
  destruct (rbind (len input) _) as [messages|e0]; [|split; [simpl; lia|reflexivity]].
  split; [simpl; lia|]. simpl.
  destruct (rbind (app messages) final_text); intros e' H; discriminate H.
Qed.

(** X18: a final state without any message makes [predict] return the
    error response: the look at the last message raises [IndexError],
    which the [except] branch turns into text. *)
Theorem predict_on_empty_final_state app uuid n request_dict input messages :
  lookup "input" request_dict = Some (JArray input) ->
  translate input = Ok messages ->
  app messages = Ok [] ->
  fst (predict app uuid n request_dict) =
    Ok {| response_id := uuid n;
          output := [text_item (uuid (S n))
                       "Sorry, an error occurred: list index out of range"] |}.
Proof.
  intros Hin Htr Happ. unfold predict. rewrite Hin. simpl.
  rewrite Htr. simpl. rewrite Happ. reflexivity.
Qed.

Lemma predict_on_empty_final_state_witness :
  fst (predict silent_graph numbered_uuid 0 [("input", JArray demo_input)]) =
    Ok {| response_id := "uuid-0";
          output := [text_item "uuid-1"
                       "Sorry, an error occurred: list index out of range"] |}.
Proof.
  apply (predict_on_empty_final_state silent_graph numbered_uuid 0
           [("input", JArray demo_input)] demo_input
           [SystemMessage "Be brief."; HumanMessage "list clusters";
            AIMessage "None found."]); reflexivity.
Defined.

(** X19: the translation goes item by item and keeps the order: the
    messages of a list followed by another are those of the first
    followed by those of the second, and an item that raises in the
    first list raises before the second is looked at. *)
Theorem translate_app input1 input2 :
  translate (input1 ++ input2) =
    rbind (translate input1) (fun ms1 =>
    rbind (translate input2) (fun ms2 => Ok (ms1 ++ ms2))).
Proof.
  induction input1 as [|msg rest IH]; simpl.
  - destruct (translate input2); reflexivity.
  - destruct (translate_one msg) as [ms|e]; simpl; [|reflexivity].
    rewrite IH. destruct (translate rest) as [ms1|e]; simpl; [|reflexivity].
    destruct (translate input2) as [ms2|e]; simpl; [|reflexivity].
    now rewrite app_assoc.
Qed.

Lemma translate_fails input :
  Exists (fun msg => exists e, translate_one msg = Raise e) input ->
  exists e, translate input = Raise e.
Proof.
  induction 1 as [msg rest [e He]|msg rest _ [e IH]]; simpl.
  - rewrite He. eauto.
  - destruct (translate_one msg) as [ms|e0]; simpl; [|eauto].
    rewrite IH. eauto.
Qed.

(** X20: one item of the input list that cannot be translated (it is no
    dict, it lacks [content] or [role], a part of its content has a
    [text] that is no string) makes [predict] raise; the graph is not
    run, and no response is made for the items that were in order. *)
Theorem predict_raises_on_bad_item app uuid n request_dict input :
  lookup "input" request_dict = Some (JArray input) ->
  Exists (fun msg => exists e, translate_one msg = Raise e) input ->
  exists e, predict app uuid n request_dict = (Raise e, []).
Proof.
  intros Hin Hbad. destruct (translate_fails _ Hbad) as [e He].
  exists e. unfold predict. rewrite Hin. simpl. rewrite He. reflexivity.
Qed.

Lemma predict_raises_on_bad_item_witness :
  exists e,
    predict answering_graph numbered_uuid 0
      [("input", JArray (demo_input ++ [JObject [("content", JStr "hello")]]))]
    = (Raise e, []).
Proof.
  apply (predict_raises_on_bad_item answering_graph numbered_uuid 0
           [("input", JArray (demo_input ++ [JObject [("content", JStr "hello")]]))]
           (demo_input ++ [JObject [("content", JStr "hello")]])).
  - reflexivity.
  - unfold demo_input. simpl app. do 4 apply Exists_cons_tl.
    apply Exists_cons_hd. eexists. reflexivity.
Defined.

(** X21: an [input] that is present but empty (an empty list, and just
    the same an empty string or an empty dict) is no error to [predict]:
    the graph is run, on no message at all. *)
Theorem predict_on_empty_input app uuid n request_dict input :
  lookup "input" request_dict = Some input ->
  input = JArray [] \/ input = JStr "" \/ input = JObject [] ->
  snd (predict app uuid n request_dict) = [[]] /\
  exists response, fst (predict app uuid n request_dict) = Ok response.
Proof.
  intros Hin Hempty. unfold predict. rewrite Hin.
  destruct Hempty as [->|[->| ->]]; simpl;
    (split; [reflexivity|]);
    destruct (rbind (app []) final_text); eexists; reflexivity.
Qed.

Lemma predict_on_empty_input_witness :
  snd (predict answering_graph numbered_uuid 0 [("input", JArray [])]) = [[]] /\
  exists response,
    fst (predict answering_graph numbered_uuid 0 [("input", JArray [])]) = Ok response.
Proof.
  apply (predict_on_empty_input answering_graph numbered_uuid 0
           [("input", JArray [])] (JArray [])); [reflexivity|left; reflexivity].
Defined.


End AdapterMoreFacts.

(** ** The graph *)

Section GraphFacts.
Import Graph.

Context {message : Type}.
Variable SystemMessage : string -> message.
Variable llm : list message -> result message.
Variable asks : message -> bool.
Variable tool_node : list message -> result (list message).

Lemma run_from_ok limit : forall at_node messages final,
  fst (run_from SystemMessage llm asks tool_node limit at_node messages) = Ok final ->
  (exists added, final = messages ++ added) /\
  (exists m, last final = Some m /\ asks m = false) /\
  exists k, snd (run_from SystemMessage llm asks tool_node limit at_node messages) =
              match at_node with
              | agent => rounds k
              | tools => tools :: rounds k
              end.
Proof.
  induction limit as [|limit IH]; intros at_node messages final; [discriminate|].
  destruct at_node; simpl.
  - destruct (agent_function SystemMessage llm messages) as [update|e] eqn:Ea;
      [|discriminate].
    destruct (tools_condition asks (messages ++ update)) eqn:Ec.
    + specialize (IH tools (messages ++ update) final).
      destruct (run_from SystemMessage llm asks tool_node limit tools
                  (messages ++ update)) as [r ran].
      simpl in *. intros H. destruct (IH H) as ([added ->] & Hlast & [k ->]).
      split; [exists (update ++ added); now rewrite app_assoc|].
      split; [exact Hlast|]. exists (S k). reflexivity.
    + simpl. intros H; inversion H; subst. split; [eauto|].
      split; [|exists O; reflexivity].
      unfold agent_function in Ea.
      destruct (llm _) as [response|?]; [|discriminate Ea].
      simpl in Ea. inversion Ea; subst.
      unfold tools_condition in Ec. rewrite last_snoc in *. eauto.
  - destruct (tool_node messages) as [update|e]; [|discriminate].
    specialize (IH agent (messages ++ update) final).
    destruct (run_from SystemMessage llm asks tool_node limit agent
                (messages ++ update)) as [r ran].
    simpl in *. intros H. destruct (IH H) as ([added ->] & Hlast & [k ->]).
    split; [exists (update ++ added); now rewrite app_assoc|].
    split; [exact Hlast|]. exists k. reflexivity.
Qed.

(** X23: in a run of the graph that comes to its end the nodes alternate:
    [agent] runs first and last, and each run of [tools] is followed by a
    run of [agent]; so the model is called once more than the tools
    node. *)
Theorem graph_run_alternates limit messages final :
  fst (run_from SystemMessage llm asks tool_node limit agent messages) = Ok final ->
  exists k,
    snd (run_from SystemMessage llm asks tool_node limit agent messages) = rounds k.
Proof. intros H. exact (proj2 (proj2 (run_from_ok _ _ _ _ H))). Qed.

(** X24: the final state of such a run starts with the messages the run
    was given, unchanged and in order, and ends with a message that asks
    for no tool call; in particular it is not empty. *)
Theorem graph_run_extends_conversation limit messages final :
  app_invoke SystemMessage llm asks tool_node limit messages = Ok final ->
  (exists added, final = messages ++ added) /\
  exists m, last final = Some m /\ asks m = false.
Proof.
  intros H. destruct (run_from_ok _ _ _ _ H) as (Ha & Hl & _). split; assumption.
Qed.
End GraphFacts.

Section GraphWitnesses.
Import Graph.

Lemma graph_run_alternates_witness :
  exists k,
    snd (run_from Sys sample_llm sample_asks sample_tool_node 5 agent
           [Human "list clusters"]) = rounds k.
Proof.
  apply (graph_run_alternates Sys sample_llm sample_asks sample_tool_node 5
           [Human "list clusters"]
           [Human "list clusters"; AI "" ["list_clusters"]; ToolResult "[]";
            AI "The clusters are []" []]).
  reflexivity.
Defined.

Lemma graph_run_extends_conversation_witness :
  (exists added,
     [Human "list clusters"; AI "" ["list_clusters"]; ToolResult "[]";
      AI "The clusters are []" []] = [Human "list clusters"] ++ added) /\
  exists m,
    last [Human "list clusters"; AI "" ["list_clusters"]; ToolResult "[]";
          AI "The clusters are []" []] = Some m /\ sample_asks m = false.
Proof.
  apply (graph_run_extends_conversation Sys sample_llm sample_asks sample_tool_node 5
           [Human "list clusters"]).
  reflexivity.
Defined.
End GraphWitnesses.

(** ** The adapter on top of the graph *)

Section AgentFacts.
Import Json Adapter AdapterSamples Graph.

Variable llm : list message -> result message.
Variable asks : message -> bool.
Variable tool_node : list message -> result (list message).

(** X25: with [predict] on top of the graph, a fault of the model
    endpoint at the first call ends in the error response: the run raises
    what the call raised, and [predict] puts its message behind
    [Sorry, an error occurred: ].  The model was called with the system
    prompt first and the translated messages after it. *)
Theorem predict_reports_model_fault limit uuid n request_dict input e :
  lookup "input" request_dict = Some (JArray input) ->
  forallb well_formed_message input = true ->
  llm (SystemMessage SYSTEM_PROMPT :: spec_translate input) = Raise e ->
  fst (predict (app_invoke SystemMessage llm asks tool_node (S limit)) uuid n
         request_dict) =
    Ok {| response_id := uuid n;
          output := [text_item (uuid (S n))
                       ("Sorry, an error occurred: " +:+ exn_str e)] |}.
Proof.
  intros Hin Hwf Hllm. unfold predict. rewrite Hin. simpl.
  rewrite (translate_spec _ Hwf). simpl.
  unfold app_invoke. simpl. unfold agent_function. simpl. rewrite Hllm. reflexivity.
Qed.

(** X26: when the model's first response asks for no tool, the text of
    the response [predict] returns is the content of that response, as it
    is, and the tools node has not run. *)
Theorem predict_returns_direct_answer limit uuid n request_dict input m :
  lookup "input" request_dict = Some (JArray input) ->
  forallb well_formed_message input = true ->
  llm (SystemMessage SYSTEM_PROMPT :: spec_translate input) = Ok m ->
  asks m = false ->
  fst (predict (app_invoke SystemMessage llm asks tool_node (S limit)) uuid n
         request_dict) =
    Ok {| response_id := uuid n;
          output := [text_item (uuid (S n)) (content_of m)] |} /\
  snd (run_from SystemMessage llm asks tool_node (S limit) agent
         (spec_translate input)) = [agent].
Proof.
  intros Hin Hwf Hllm Hno. unfold predict. rewrite Hin. simpl.
  rewrite (translate_spec _ Hwf). simpl.
  unfold app_invoke. simpl. unfold agent_function. simpl. rewrite Hllm. simpl.
  unfold tools_condition. rewrite last_snoc, Hno. simpl.
  unfold final_text. rewrite last_snoc. split; reflexivity.
Qed.
End AgentFacts.

Section AgentWitnesses.
Import Json Adapter AdapterSamples Graph.

Lemma predict_reports_model_fault_witness :
  fst (predict (app_invoke SystemMessage failing_llm never_asks no_tool_node 25)
         numbered_uuid 0 [("input", JArray demo_input)]) =
    Ok {| response_id := "uuid-0";
          output := [text_item "uuid-1"
                       "Sorry, an error occurred: model endpoint unreachable"] |}.
Proof.
  apply (predict_reports_model_fault failing_llm never_asks no_tool_node 24
           numbered_uuid 0 [("input", JArray demo_input)] demo_input
           (Exn "ConnectionError" "model endpoint unreachable")); reflexivity.
Defined.

Lemma predict_returns_direct_answer_witness :
  fst (predict (app_invoke SystemMessage direct_llm never_asks no_tool_node 25)
         numbered_uuid 0 [("input", JArray demo_input)]) =
    Ok {| response_id := "uuid-0";
          output := [text_item "uuid-1" "There are no clusters."] |} /\
  snd (run_from SystemMessage direct_llm never_asks no_tool_node 25 agent
         (spec_translate demo_input)) = [agent].
Proof.
  apply (predict_returns_direct_answer direct_llm never_asks no_tool_node 24
           numbered_uuid 0 [("input", JArray demo_input)] demo_input
           (AIMessage "There are no clusters.")); reflexivity.
Defined.
End AgentWitnesses.
